(** * SIstemaBiblio: [external_services.py]

    A shallow embedding of the book-identification pipeline
    ([limpiar_isbn], [buscar_en_google_books] with its local [_parse_volume],
    [identificar_libro_por_imagen]) and the properties of its specification.

    Conventions of the embedding.
    - A Python [str] is a Rocq [string]; its characters are read as the code
      points U+0000..U+00FF.  The character tables of CPython ([str.upper],
      [str.isdigit], [str.isspace], [int]) are written out on that range.
    - A value obtained from JSON is a [json]; a Python [dict] with a fixed
      set of keys is a record; an absent key is [None].
    - A raised exception is the left injection of [py], carrying the class
      name and the text of [str(e)].
    - External collaborators (the OpenAI client, [json.loads],
      [requests.get]) are the fields of an environment [Env]; every call of a
      collaborator or of the catalog resolver is recorded in a log of
      [event]s, threaded through the monad [M]. *)

From Stdlib Require Import String Ascii List ZArith NArith Bool Lia.
Import ListNotations.
Local Open Scope string_scope.

(** ** Characters and strings *)

Module Str.

Definition ord (c : ascii) : N := N_of_ascii c.

(** [c] lies in the character class [0-9] of a [re] pattern. *)
Definition is_0_9 (c : ascii) : bool :=
  ((48 <=? ord c) && (ord c <=? 57))%N.

(** The complement of the class [[^0-9X]]: the characters [re.sub] keeps. *)
Definition is_0_9X (c : ascii) : bool :=
  is_0_9 c || (ord c =? 88)%N.

(** [str.upper] on one character.  U+00DF upper-cases to the two characters
    [SS]; U+00B5 and U+00FF upper-case to U+039C and U+0178, which lie outside
    the range of [ascii]: they are left in place (neither they nor their
    upper-case forms are digits or [X]). *)
Definition chr_upper (c : ascii) : string :=
  let n := ord c in
  if ((97 <=? n) && (n <=? 122))%N then String (ascii_of_N (n - 32)) ""
  else if (n =? 223)%N then "SS"
  else if ((224 <=? n) && (n <=? 254) && negb (n =? 247))%N
       then String (ascii_of_N (n - 32)) ""
  else String c "".

Fixpoint upper (s : string) : string :=
  match s with
  | EmptyString => ""
  | String c s' => chr_upper c ++ upper s'
  end.

(** [re.sub(r"[^0-9X]", "", s)]. *)
Fixpoint sub_non_0_9X (s : string) : string :=
  match s with
  | EmptyString => ""
  | String c s' =>
      if is_0_9X c then String c (sub_non_0_9X s') else sub_non_0_9X s'
  end.

(** [str.isdigit] on one character: the decimal digits and the superscript
    digits U+00B2, U+00B3, U+00B9 (Numeric_Type=Digit). *)
Definition chr_isdigit (c : ascii) : bool :=
  is_0_9 c || (ord c =? 178)%N || (ord c =? 179)%N || (ord c =? 185)%N.

Fixpoint all_chars (p : ascii -> bool) (s : string) : bool :=
  match s with
  | EmptyString => true
  | String c s' => p c && all_chars p s'
  end.

(** [s.isdigit()]: at least one character, and all of them digits. *)
Definition isdigit (s : string) : bool :=
  match s with
  | EmptyString => false
  | _ => all_chars chr_isdigit s
  end.

(** [s[:n]]. *)
Fixpoint prefix (n : nat) (s : string) : string :=
  match n, s with
  | S n', String c s' => String c (prefix n' s')
  | _, _ => ""
  end.

(** The value of a string of decimal digits read in base 10, most
    significant digit first, continuing from [acc]. *)
Fixpoint decimal_value (acc : Z) (s : string) : Z :=
  match s with
  | EmptyString => acc
  | String c s' => decimal_value (10 * acc + (Z.of_N (ord c) - 48)) s'
  end.

(** [str.isspace] on one character. *)
Definition chr_isspace (c : ascii) : bool :=
  let n := ord c in
  (((9 <=? n) && (n <=? 13)) || ((28 <=? n) && (n <=? 32))
   || (n =? 133) || (n =? 160))%N.

Fixpoint lstrip (s : string) : string :=
  match s with
  | EmptyString => ""
  | String c s' => if chr_isspace c then lstrip s' else s
  end.

Fixpoint rstrip (s : string) : string :=
  match s with
  | EmptyString => ""
  | String c s' =>
      match rstrip s' with
      | EmptyString => if chr_isspace c then "" else String c ""
      | r => String c r
      end
  end.

(** [s.strip()]. *)
Definition strip (s : string) : string := rstrip (lstrip s).

(** [sep.join(l)]. *)
Definition join (sep : string) (l : list string) : string :=
  String.concat sep l.

(** Truth value of a [str]: non-empty. *)
Definition truthy (s : string) : bool :=
  match s with EmptyString => false | _ => true end.

End Str.

(** ** The identifier normalizer *)

(** [limpiar_isbn] on a [str] argument (lines 13-21). *)
Definition limpiar_isbn (isbn : string) : string :=
  if negb (Str.truthy isbn) then ""
  else
    let isbn := Str.upper isbn in
    let isbn := Str.sub_non_0_9X isbn in
    if (String.length isbn =? 10)%nat || (String.length isbn =? 13)%nat
    then isbn
    else "".

(** ** Python values and exceptions *)

(** A raised exception: its class and the text of [str(e)]. *)
Record exn := Exn { exn_class : string; exn_text : string }.

(** The outcome of an expression that may raise. *)
Definition py (A : Type) : Type := (exn + A)%type.

(** The classes that derive from [BaseException] and not from [Exception]. *)
Definition not_Exception_classes : list string :=
  ["BaseException"; "BaseExceptionGroup"; "GeneratorExit";
   "KeyboardInterrupt"; "SystemExit"; "CancelledError"].

(** [isinstance(e, Exception)]. *)
Definition is_Exception (e : exn) : bool :=
  negb (existsb (String.eqb (exn_class e)) not_Exception_classes).

(** A value produced by [json.loads] (numbers: the integers). *)
#[warnings="-register-all"]
Inductive json : Type :=
| JNull
| JBool (b : bool)
| JNum (n : Z)
| JStr (s : string)
| JArr (l : list json)
| JObj (kv : list (string * json)).

Module Json.

(** Truth value of a Python value. *)
Definition truthy (v : json) : bool :=
  match v with
  | JNull => false
  | JBool b => b
  | JNum n => negb (n =? 0)%Z
  | JStr s => Str.truthy s
  | JArr l => match l with [] => false | _ => true end
  | JObj kv => match kv with [] => false | _ => true end
  end.

(** [a or b]. *)
Definition or_ (a b : json) : json := if truthy a then a else b.

(** [type(v).__name__]. *)
Definition type_name (v : json) : string :=
  match v with
  | JNull => "NoneType"
  | JBool _ => "bool"
  | JNum _ => "int"
  | JStr _ => "str"
  | JArr _ => "list"
  | JObj _ => "dict"
  end.

(** The [AttributeError] of a method missing on [v]. *)
Definition no_attribute (v : json) (meth : string) : exn :=
  Exn "AttributeError"
      ("'" ++ type_name v ++ "' object has no attribute '" ++ meth ++ "'").

Fixpoint assoc (k : string) (kv : list (string * json)) : option json :=
  match kv with
  | [] => None
  | (k', v) :: kv' => if String.eqb k k' then Some v else assoc k kv'
  end.

(** [d.get(k, dflt)]; only a [dict] has the method. *)
Definition get (d : json) (k : string) (dflt : json) : py json :=
  match d with
  | JObj kv => inr (match assoc k kv with Some v => v | None => dflt end)
  | _ => inl (no_attribute d "get")
  end.

End Json.

(** [a or b] on [str]. *)
Definition str_or (a b : string) : string := if Str.truthy a then a else b.

(** [s or None]. *)
Definition str_or_None (s : string) : option string :=
  if Str.truthy s then Some s else None.

(** [s or ""] for [s] a [str] or [None]. *)
Definition opt_or_empty (s : option string) : string :=
  match s with Some s => s | None => "" end.

(** Truth value of a [str] or [None]. *)
Definition opt_truthy (s : option string) : bool :=
  match s with Some s => Str.truthy s | None => false end.

(** [limpiar_isbn] on an arbitrary argument: a false value returns [""] at
    line 15-16, a [str] goes through the body, any other value has no
    [upper] method. *)
Definition limpiar_isbn_dyn (isbn : json) : py string :=
  if negb (Json.truthy isbn) then inr ""
  else match isbn with
       | JStr s => inr (limpiar_isbn s)
       | v => inl (Json.no_attribute v "upper")
       end.

(** [int(s)] for the strings that reach it here, those with [s.isdigit()]:
    the decimal value when every character is a decimal digit, [ValueError]
    when one is not (a superscript digit). *)
Definition int_of_str (s : string) : py Z :=
  if Str.truthy s && Str.all_chars Str.is_0_9 s
  then inr (Str.decimal_value 0 s)
  else inl (Exn "ValueError"
                ("invalid literal for int() with base 10: '" ++ s ++ "'")).

(** ** Records of the pipeline *)

(** The [dict] with keys [isbn], [titulo], [autor], [anio], [editorial]. *)
Record libro := Libro {
  isbn : string;
  titulo : string;
  autor : string;
  anio : json;
  editorial : string
}.

(** One entry of [industryIdentifiers]. *)
Record identifier_entry := IdentifierEntry {
  ie_type : option string;
  ie_identifier : option string
}.

(** The [volumeInfo] object of a catalog item. *)
Record volume_info := VolumeInfo {
  industryIdentifiers : option (list identifier_entry);
  publishedDate : option string;
  authors : option (list string);
  title : option string;
  publisher : option string
}.

(** A catalog item. *)
Record volume := Volume { volumeInfo : option volume_info }.

(** The decoded body of a catalog response. *)
Record catalog_data := CatalogData { items : option (list volume) }.

(** A [requests.Response]: its status and what [r.json()] gives. *)
Record response := Response {
  status_code : Z;
  json_body : py catalog_data
}.

(** The local variables [isbn_ia], [titulo_ia], [autor_ia], [anio_ia],
    [editorial_ia] of [identificar_libro_por_imagen]. *)
Record extraccion := Extraccion {
  isbn_ia : string;
  titulo_ia : string;
  autor_ia : string;
  anio_ia : json;
  editorial_ia : string
}.

(** ** Effects *)

Inductive event : Type :=
| EvVision (image_bytes : list Byte.byte)
| EvBuscar (isbn titulo autor : option string)
| EvGet (url : string).

(** The external collaborators. *)
Record Env := {
  client : bool;
  chat_create : list Byte.byte -> py (option string);
  json_loads : string -> py json;
  requests_get : string -> py response
}.

(** A computation that may raise and that appends to the log of events. *)
Definition M (A : Type) : Type := list event -> py A * list event.

Definition ret {A} (a : A) : M A := fun log => (inr a, log).

Definition raise {A} (e : exn) : M A := fun log => (inl e, log).

Definition bind {A B} (m : M A) (k : A -> M B) : M B :=
  fun log =>
    match m log with
    | (inr a, log') => k a log'
    | (inl e, log') => (inl e, log')
    end.

Definition lift {A} (r : py A) : M A :=
  match r with inr a => ret a | inl e => raise e end.

Definition emit (ev : event) : M unit := fun log => (inr tt, (log ++ [ev])%list).

(** [try: m  except Exception as e: h e]; an exception that is not an
    instance of [Exception] is not caught. *)
Definition try_except {A} (m : M A) (h : exn -> M A) : M A :=
  fun log =>
    match m log with
    | (inr a, log') => (inr a, log')
    | (inl e, log') => if is_Exception e then h e log' else (inl e, log')
    end.

Notation "x <- m ;; k" := (bind m (fun x => k))
  (at level 61, m at next level, right associativity).
Notation "m ;;; k" := (bind m (fun _ => k))
  (at level 61, right associativity).

(** ** The catalog resolver *)

(** [t in ("ISBN_13", "ISBN_10")] for [t = ident.get("type")]. *)
Definition is_isbn_type (t : option string) : bool :=
  match t with
  | Some t => String.eqb t "ISBN_13" || String.eqb t "ISBN_10"
  | None => false
  end.

(** [t == "ISBN_13"]. *)
Definition is_isbn_13 (t : option string) : bool :=
  match t with Some t => String.eqb t "ISBN_13" | None => false end.

(** The loop of lines 36-43 over [info.get("industryIdentifiers", [])],
    started with [isbn_res]; leaving the recursion is the [break]. *)
Fixpoint _parse_volume_isbn (isbn_res : string) (idents : list identifier_entry)
  : string :=
  match idents with
  | [] => isbn_res
  | ident :: rest =>
      let t := ie_type ident in
      let v := opt_or_empty (ie_identifier ident) in
      if is_isbn_type t && Str.truthy v then
        if is_isbn_13 t then v else _parse_volume_isbn v rest
      else _parse_volume_isbn isbn_res rest
  end.

(** Lines 46-49: the year of a [publishedDate]. *)
Definition _parse_volume_anio (pub_date : string) : py Z :=
  if (4 <=? String.length pub_date)%nat && Str.isdigit (Str.prefix 4 pub_date)
  then int_of_str (Str.prefix 4 pub_date)
  else inr 0%Z.

(** [vol.get("volumeInfo", {})] of an item without the key. *)
Definition no_info : volume_info := VolumeInfo None None None None None.

Definition _parse_volume (vol : volume) (isbn_fallback : string) : py libro :=
  let info := match volumeInfo vol with Some i => i | None => no_info end in
  let isbn_res :=
    _parse_volume_isbn isbn_fallback
      (match industryIdentifiers info with Some l => l | None => [] end) in
  match _parse_volume_anio (opt_or_empty (publishedDate info)) with
  | inl e => inl e
  | inr anio =>
      let autores :=
        Str.join ", " (match authors info with Some l => l | None => [] end) in
      inr {| isbn := isbn_res;
             titulo := opt_or_empty (title info);
             autor := autores;
             anio := JNum anio;
             editorial := opt_or_empty (publisher info) |}
  end.

(** [data["items"][0]] when [data.get("items")] is true. *)
Definition first_item (data : catalog_data) : option volume :=
  match items data with
  | Some (vol :: _) => Some vol
  | _ => None
  end.

(** [gb["titulo"] or gb["autor"]] as a condition. *)
Definition has_titulo_or_autor (gb : libro) : bool :=
  Str.truthy (titulo gb) || Str.truthy (autor gb).

Definition volumes_url : string :=
  "https://www.googleapis.com/books/v1/volumes?q=".

Section Pipeline.

Variable env : Env.

(** [requests.get(url, timeout=10)]: a timeout or a connection failure is the
    exception the environment answers with. *)
Definition get (url : string) : M response :=
  emit (EvGet url) ;;; lift (requests_get env url).

(** Lines 62-72; [Some gb] is the [return gb] of line 72, [None] falls
    through to line 74. *)
Definition buscar_por_isbn (isbn : option string) : M (option libro) :=
  if opt_truthy isbn then
    let isbn_clean := limpiar_isbn (opt_or_empty isbn) in
    if Str.truthy isbn_clean then
      r <- get (volumes_url ++ "isbn:" ++ isbn_clean) ;;
      if (status_code r =? 200)%Z then
        data <- lift (json_body r) ;;
        match first_item data with
        | Some vol =>
            gb <- lift (_parse_volume vol isbn_clean) ;;
            if has_titulo_or_autor gb then ret (Some gb) else ret None
        | None => ret None
        end
      else ret None
    else ret None
  else ret None.

(** Lines 75-79. *)
Definition q_parts (titulo autor : option string) : list string :=
  let t := if opt_truthy titulo then ["intitle:" ++ opt_or_empty titulo] else [] in
  let a := if opt_truthy autor then ["inauthor:" ++ opt_or_empty autor] else [] in
  (t ++ a)%list.

(** Lines 75-97. *)
Definition buscar_por_texto (isbn titulo autor : option string)
  : M (option libro) :=
  match q_parts titulo autor with
  | [] => ret None
  | parts =>
      let query := Str.join "+" parts in
      r <- get (volumes_url ++ query) ;;
      if negb (status_code r =? 200)%Z then ret None
      else
        data <- lift (json_body r) ;;
        match first_item data with
        | None => ret None
        | Some vol =>
            gb <- lift (_parse_volume vol (limpiar_isbn (opt_or_empty isbn))) ;;
            if has_titulo_or_autor gb then ret (Some gb) else ret None
        end
  end.

Definition buscar_en_google_books (isbn titulo autor : option string)
  : M (option libro) :=
  emit (EvBuscar isbn titulo autor) ;;;
  r1 <- buscar_por_isbn isbn ;;
  match r1 with
  | Some gb => ret (Some gb)
  | None => buscar_por_texto isbn titulo autor
  end.

(** ** The orchestrator *)

(** [(ia.get(k) or "").strip()]. *)
Definition get_stripped (ia : json) (k : string) : py string :=
  match Json.get ia k JNull with
  | inl e => inl e
  | inr v =>
      match Json.or_ v (JStr "") with
      | JStr s => inr (Str.strip s)
      | w => inl (Json.no_attribute w "strip")
      end
  end.

(** Lines 125-152: the vision call and the decoding of its answer. *)
Definition extraer (image_bytes : list Byte.byte) : M extraccion :=
  emit (EvVision image_bytes) ;;;
  content <- lift (chat_create env image_bytes) ;;
  ia <- lift (json_loads env (str_or (opt_or_empty content) "{}")) ;;
  v <- lift (Json.get ia "isbn" (JStr "")) ;;
  isbn_ia <- lift (limpiar_isbn_dyn v) ;;
  titulo_ia <- lift (get_stripped ia "titulo") ;;
  autor_ia <- lift (get_stripped ia "autor") ;;
  a <- lift (Json.get ia "anio" JNull) ;;
  let anio_ia := Json.or_ a (JNum 0) in
  editorial_ia <- lift (get_stripped ia "editorial") ;;
  ret (Extraccion isbn_ia titulo_ia autor_ia anio_ia editorial_ia).

(** Lines 161-176; a returned [gb] is a five-key [dict], hence true. *)
Definition combinar (gb : option libro) (x : extraccion) : libro :=
  match gb with
  | Some gb =>
      {| isbn := str_or (isbn gb) (isbn_ia x);
         titulo := str_or (titulo gb) (titulo_ia x);
         autor := str_or (autor gb) (autor_ia x);
         anio := Json.or_ (Json.or_ (anio gb) (anio_ia x)) (JNum 0);
         editorial := str_or (editorial gb) (editorial_ia x) |}
  | None =>
      {| isbn := isbn_ia x;
         titulo := titulo_ia x;
         autor := autor_ia x;
         anio := Json.or_ (anio_ia x) (JNum 0);
         editorial := editorial_ia x |}
  end.

(** The pair [(dict, error)] the routine returns. *)
Definition resultado : Type := (option libro * option string)%type.

Definition identificar_libro_por_imagen (image_bytes : list Byte.byte)
  : M resultado :=
  if negb (client env) then
    ret (None, Some "OPENAI_API_KEY no configurada en el entorno.")
  else
    try_except
      (x <- extraer image_bytes ;;
       gb <- buscar_en_google_books
               (str_or_None (isbn_ia x))
               (str_or_None (titulo_ia x))
               (str_or_None (autor_ia x)) ;;
       ret (Some (combinar gb x), None))
      (fun e => ret (None, Some ("Error al consultar la IA: " ++ exn_text e))).

End Pipeline.

(** ** Definitions used by the statements *)

(** The identifier constraint of the data model: empty, or exactly 10 or 13
    characters among the digits and [X]. *)
Definition valid_identifier (s : string) : bool :=
  negb (Str.truthy s)
  || (((String.length s =? 10)%nat || (String.length s =? 13)%nat)
      && Str.all_chars Str.is_0_9X s).

(** The cleaned content of a raw identifier, character by character: a
    decimal digit stays, [x] and [X] give [X], anything else is dropped. *)
Fixpoint digits_and_X (s : string) : string :=
  match s with
  | EmptyString => ""
  | String c s' =>
      if existsb (Ascii.eqb c) (list_ascii_of_string "0123456789")
      then String c (digits_and_X s')
      else if Ascii.eqb c "x" || Ascii.eqb c "X"
           then String "X" (digits_and_X s')
           else digits_and_X s'
  end.

(** An entry that the scan of the identifier list takes into account, with
    the given type flag. *)
Definition entry_of_type (ty : string) (e : identifier_entry) : bool :=
  match ie_type e with
  | Some t => String.eqb t ty && Str.truthy (opt_or_empty (ie_identifier e))
  | None => false
  end.

(** The value of the first entry of type [ty], if any. *)
Fixpoint first_of_type (ty : string) (l : list identifier_entry)
  : option string :=
  match l with
  | [] => None
  | e :: l' =>
      if entry_of_type ty e then Some (opt_or_empty (ie_identifier e))
      else first_of_type ty l'
  end.

(** The value of the last entry of type [ty], if any. *)
Fixpoint last_of_type (ty : string) (l : list identifier_entry)
  : option string :=
  match l with
  | [] => None
  | e :: l' =>
      match last_of_type ty l' with
      | Some v => Some v
      | None =>
          if entry_of_type ty e then Some (opt_or_empty (ie_identifier e))
          else None
      end
  end.

(** The scan as the specification words it: the first 13-character-kind
    value, else the first-seen 10-character-kind value, else the fallback. *)
Definition scan_first_seen (fallback : string) (l : list identifier_entry)
  : string :=
  match first_of_type "ISBN_13" l with
  | Some v => v
  | None =>
      match first_of_type "ISBN_10" l with
      | Some v => v
      | None => fallback
      end
  end.

(** The same with the 10-character-kind value seen last. *)
Definition scan_last_seen (fallback : string) (l : list identifier_entry)
  : string :=
  match first_of_type "ISBN_13" l with
  | Some v => v
  | None =>
      match last_of_type "ISBN_10" l with
      | Some v => v
      | None => fallback
      end
  end.

(** The published date of a catalog item, as [_parse_volume] reads it. *)
Definition pub_date_of (vol : volume) : string :=
  match volumeInfo vol with
  | Some info => opt_or_empty (publishedDate info)
  | None => ""
  end.

(** The identifier entries of a catalog item, as [_parse_volume] reads them. *)
Definition idents_of (vol : volume) : list identifier_entry :=
  match volumeInfo vol with
  | Some info => match industryIdentifiers info with Some l => l | None => [] end
  | None => []
  end.

(** [int] accepts the year of the item: its first four characters are not
    all [isdigit] digits, or they are all decimal. *)
Definition date_parses (vol : volume) : bool :=
  match _parse_volume_anio (pub_date_of vol) with
  | inr _ => true
  | inl _ => false
  end.

(** Every entry of the item that the scan can select carries an identifier
    satisfying the constraint. *)
Definition idents_valid (vol : volume) : bool :=
  forallb (fun e =>
             negb (is_isbn_type (ie_type e))
             || valid_identifier (opt_or_empty (ie_identifier e)))
          (idents_of vol).

(** Every catalog request is answered (with any status) and, on status 200,
    by a body that decodes and whose first item has a year [int] accepts. *)
Definition catalog_answers (env : Env) : Prop :=
  forall url, exists r,
    requests_get env url = inr r /\
    (status_code r = 200%Z ->
     exists data, json_body r = inr data /\
       forall vol, first_item data = Some vol -> date_parses vol = true).

(** The catalog only serves identifiers satisfying the constraint. *)
Definition catalog_identifiers_valid (env : Env) : Prop :=
  forall url r data vol,
    requests_get env url = inr r ->
    json_body r = inr data ->
    first_item data = Some vol ->
    idents_valid vol = true.

(** What the handler of lines 180-181 returns. *)
Definition error_ia (e : exn) : resultado :=
  (None, Some ("Error al consultar la IA: " ++ exn_text e)).

(** The outcome of the [try] statement when its body raises [e]. *)
Definition handled (e : exn) : py resultado :=
  if is_Exception e then inr (error_ia e) else inl e.

(** Where a candidate comes from: the first item of a decoded response,
    parsed with the normalized hint as fallback, and accepted for its title
    or author. *)
Definition candidate_of (env : Env) (i : option string) (gb : libro) : Prop :=
  exists url r data vol,
    requests_get env url = inr r /\
    json_body r = inr data /\
    first_item data = Some vol /\
    _parse_volume vol (limpiar_isbn (opt_or_empty i)) = inr gb /\
    has_titulo_or_autor gb = true.

(** No catalog activity in a log: neither a call of the resolver nor a
    request. *)
Definition is_catalog_event (ev : event) : bool :=
  match ev with
  | EvVision _ => false
  | EvBuscar _ _ _ => true
  | EvGet _ => true
  end.

Definition is_get_event (ev : event) : bool :=
  match ev with EvGet _ => true | _ => false end.

(** Lines 148-152: the reading of the fields of the decoded payload. *)
Definition leer_campos (ia : json) : py extraccion :=
  match Json.get ia "isbn" (JStr "") with
  | inl e => inl e
  | inr v =>
  match limpiar_isbn_dyn v with
  | inl e => inl e
  | inr isbn_ia =>
  match get_stripped ia "titulo" with
  | inl e => inl e
  | inr titulo_ia =>
  match get_stripped ia "autor" with
  | inl e => inl e
  | inr autor_ia =>
  match Json.get ia "anio" JNull with
  | inl e => inl e
  | inr a =>
  match get_stripped ia "editorial" with
  | inl e => inl e
  | inr editorial_ia =>
      inr (Extraccion isbn_ia titulo_ia autor_ia (Json.or_ a (JNum 0))
                      editorial_ia)
  end end end end end end.

(** The ways the extraction stage fails with the exception [e]: the vision
    call raises it; the payload does not decode; the fields of the decoded
    payload cannot be read. *)
Inductive extraction_fails (env : Env) (image_bytes : list Byte.byte)
  (e : exn) : Prop :=
| vision_raises :
    chat_create env image_bytes = inl e ->
    extraction_fails env image_bytes e
| payload_unparseable (content : option string) :
    chat_create env image_bytes = inr content ->
    json_loads env (str_or (opt_or_empty content) "{}") = inl e ->
    extraction_fails env image_bytes e
| fields_unreadable (content : option string) (ia : json) :
    chat_create env image_bytes = inr content ->
    json_loads env (str_or (opt_or_empty content) "{}") = inr ia ->
    leer_campos ia = inl e ->
    extraction_fails env image_bytes e.

(** Whatever the collaborators raise is an instance of [Exception]. *)
Definition raise_only_Exception (env : Env) : Prop :=
  (forall img e, chat_create env img = inl e -> is_Exception e = true) /\
  (forall s e, json_loads env s = inl e -> is_Exception e = true) /\
  (forall url e, requests_get env url = inl e -> is_Exception e = true) /\
  (forall url r e, requests_get env url = inr r -> json_body r = inl e ->
                   is_Exception e = true).

(** ** Definitions used by the further properties *)

(** Lines 9-10: the client exists when [OPENAI_API_KEY] is set and is not the
    empty string. *)
Definition client_of_key (OPENAI_API_KEY : option string) : bool :=
  opt_truthy OPENAI_API_KEY.

(** The collaborators of [env] with the client made from a key. *)
Definition with_key (OPENAI_API_KEY : option string) (env : Env) : Env :=
  {| client := client_of_key OPENAI_API_KEY;
     chat_create := chat_create env;
     json_loads := json_loads env;
     requests_get := requests_get env |}.

(** The address requested at line 65-66. *)
Definition isbn_url (isbn : option string) : string :=
  volumes_url ++ "isbn:" ++ limpiar_isbn (opt_or_empty isbn).

(** The address requested at line 84-85. *)
Definition text_url (titulo autor : option string) : string :=
  volumes_url ++ Str.join "+" (q_parts titulo autor).

Definition starts_with_space (s : string) : bool :=
  match s with
  | EmptyString => false
  | String c _ => Str.chr_isspace c
  end.

Fixpoint ends_with_space (s : string) : bool :=
  match s with
  | EmptyString => false
  | String c s' =>
      match s' with
      | EmptyString => Str.chr_isspace c
      | _ => ends_with_space s'
      end
  end.

(** Neither the first nor the last character is white space. *)
Definition is_stripped (s : string) : bool :=
  negb (starts_with_space s) && negb (ends_with_space s).

(** A response the resolver can take no candidate from: a status other
    than 200, or a body without a first item. *)
Definition nothing_found (r : response) : Prop :=
  status_code r <> 200%Z \/
  exists data, json_body r = inr data /\ first_item data = None.

(** ** Concrete inputs *)

Module Samples.

Definition dq : string := String (ascii_of_nat 34) EmptyString.

(** The text [{"titulo": "Dune"}]. *)
Definition dune_content : string :=
  "{" ++ dq ++ "titulo" ++ dq ++ ": " ++ dq ++ "Dune" ++ dq ++ "}".

Definition dune_ia : json := JObj [("titulo", JStr "Dune")].

Definition decode_error : exn :=
  Exn "JSONDecodeError" "Expecting value: line 1 column 1 (char 0)".

Definition loads (s : string) : py json :=
  if String.eqb s "{}" then inr (JObj [])
  else if String.eqb s dune_content then inr dune_ia
  else inl decode_error.

Definition isbn10 (v : string) : identifier_entry :=
  IdentifierEntry (Some "ISBN_10") (Some v).

Definition isbn13 (v : string) : identifier_entry :=
  IdentifierEntry (Some "ISBN_13") (Some v).

Definition dune_volume (idents : list identifier_entry) (date : string)
  : volume :=
  Volume (Some (VolumeInfo (Some idents) (Some date)
                           (Some ["Frank Herbert"]) (Some "Dune") (Some "Ace"))).

Definition ok_response (vol : volume) : py response :=
  inr (Response 200 (inr (CatalogData (Some [vol])))).

Definition image : list Byte.byte := [Byte.xff; Byte.xd8; Byte.xff].

(** The vision service reads the title only; the catalog knows the book. *)
Definition env_dune : Env :=
  {| client := true;
     chat_create := fun _ => inr (Some dune_content);
     json_loads := loads;
     requests_get := fun _ =>
       ok_response
         (dune_volume [isbn10 "0441013597"; isbn13 "9780441013593"]
                      "1965-06-01") |}.

(** The same, with a catalog that serves a hyphenated identifier. *)
Definition env_hyphen : Env :=
  {| client := true;
     chat_create := fun _ => inr (Some dune_content);
     json_loads := loads;
     requests_get := fun _ =>
       ok_response (dune_volume [isbn13 "978-0-441-01359-3"] "1965-06-01") |}.

Definition read_timeout : exn :=
  Exn "ReadTimeout"
      "HTTPSConnectionPool(host='www.googleapis.com', port=443): Read timed out. (read timeout=10)".

(** The same, with a catalog that does not answer in time. *)
Definition env_timeout : Env :=
  {| client := true;
     chat_create := fun _ => inr (Some dune_content);
     json_loads := loads;
     requests_get := fun _ => inl read_timeout |}.

(** The vision service answers with an empty message. *)
Definition env_empty : Env :=
  {| client := true;
     chat_create := fun _ => inr None;
     json_loads := loads;
     requests_get := fun _ => inl read_timeout |}.

(** A catalog that answers every request with status 503. *)
Definition env_unavailable : Env :=
  {| client := true;
     chat_create := fun _ => inr (Some dune_content);
     json_loads := loads;
     requests_get := fun _ =>
       inr (Response 503 (inl decode_error)) |}.

Definition rate_limit : exn :=
  Exn "RateLimitError" "Error code: 429 - rate limit exceeded".

(** The vision service fails. *)
Definition env_vision_down : Env :=
  {| client := true;
     chat_create := fun _ => inl rate_limit;
     json_loads := loads;
     requests_get := fun _ =>
       ok_response (dune_volume [isbn13 "9780441013593"] "1965-06-01") |}.

(** A published date that starts with SUPERSCRIPT TWO (U+00B2). *)
Definition superscript_date : string :=
  String (ascii_of_nat 178) "019-01-01".

(** The catalog serves that date. *)
Definition env_superscript : Env :=
  {| client := true;
     chat_create := fun _ => inr (Some dune_content);
     json_loads := loads;
     requests_get := fun _ => ok_response (dune_volume [] superscript_date) |}.

Definition two_isbn_10 : list identifier_entry :=
  [isbn10 "0441013597"; isbn10 "0441172717"].

(** The vision service gives the identifier as a number. *)
Definition env_isbn_number : Env :=
  {| client := true;
     chat_create := fun _ => inr (Some "isbn-as-number");
     json_loads := fun _ => inr (JObj [("isbn", JNum 9780441013593)]);
     requests_get := fun _ =>
       ok_response (dune_volume [isbn13 "9780441013593"] "1965-06-01") |}.

(** The vision service answers with a list. *)
Definition env_payload_list : Env :=
  {| client := true;
     chat_create := fun _ => inr (Some "[]");
     json_loads := fun _ => inr (JArr []);
     requests_get := fun _ => inl read_timeout |}.

(** The catalog answers with an empty result list. *)
Definition env_no_items : Env :=
  {| client := true;
     chat_create := fun _ => inr (Some dune_content);
     json_loads := loads;
     requests_get := fun _ => inr (Response 200 (inr (CatalogData (Some [])))) |}.

(** The user interrupts the vision call. *)
Definition env_interrupt : Env :=
  {| client := true;
     chat_create := fun _ => inl (Exn "KeyboardInterrupt" "");
     json_loads := loads;
     requests_get := fun _ => inl read_timeout |}.

End Samples.

(** * Properties *)

(** ** Strings *)

Ltac by_cases_on_char c :=
  destruct c as [[] [] [] [] [] [] [] []]; vm_compute; try reflexivity;
  try discriminate.

Lemma sub_non_0_9X_app (a b : string) :
  Str.sub_non_0_9X (a ++ b) = Str.sub_non_0_9X a ++ Str.sub_non_0_9X b.
Proof.
  induction a as [|c a IH]; simpl; [reflexivity|].
  destruct (Str.is_0_9X c); simpl; now rewrite IH.
Qed.

Lemma sub_non_0_9X_chr_upper (c : ascii) :
  Str.sub_non_0_9X (Str.chr_upper c) = digits_and_X (String c "").
Proof. by_cases_on_char c. Qed.

Lemma digits_and_X_cons (c : ascii) (s : string) :
  digits_and_X (String c s) = digits_and_X (String c "") ++ digits_and_X s.
Proof.
  cbn [digits_and_X].
  destruct (existsb (Ascii.eqb c) (list_ascii_of_string "0123456789"));
    [reflexivity|].
  destruct (Ascii.eqb c "x" || Ascii.eqb c "X"); reflexivity.
Qed.

Lemma sub_non_0_9X_upper (s : string) :
  Str.sub_non_0_9X (Str.upper s) = digits_and_X s.
Proof.
  induction s as [|c s IH]; [reflexivity|].
  cbn [Str.upper]. rewrite sub_non_0_9X_app, sub_non_0_9X_chr_upper, IH.
  symmetry. apply digits_and_X_cons.
Qed.

Lemma sub_non_0_9X_all (s : string) :
  Str.all_chars Str.is_0_9X (Str.sub_non_0_9X s) = true.
Proof.
  induction s as [|c s IH]; simpl; [reflexivity|].
  destruct (Str.is_0_9X c) eqn:Hc; simpl; [now rewrite Hc|exact IH].
Qed.

Lemma chr_upper_0_9X (c : ascii) :
  Str.is_0_9X c = true -> Str.chr_upper c = String c "".
Proof. by_cases_on_char c. Qed.

Lemma upper_0_9X (s : string) :
  Str.all_chars Str.is_0_9X s = true -> Str.upper s = s.
Proof.
  induction s as [|c s IH]; simpl; [reflexivity|].
  intros H. apply andb_true_iff in H. destruct H as [Hc Hs].
  rewrite (chr_upper_0_9X c Hc), (IH Hs). reflexivity.
Qed.

Lemma sub_non_0_9X_0_9X (s : string) :
  Str.all_chars Str.is_0_9X s = true -> Str.sub_non_0_9X s = s.
Proof.
  induction s as [|c s IH]; simpl; [reflexivity|].
  intros H. apply andb_true_iff in H. destruct H as [Hc Hs].
  rewrite Hc, (IH Hs). reflexivity.
Qed.

(** What [limpiar_isbn] computes, without the early return. *)
Lemma limpiar_isbn_unfold (s : string) :
  limpiar_isbn s =
  let cleaned := Str.sub_non_0_9X (Str.upper s) in
  if (String.length cleaned =? 10)%nat || (String.length cleaned =? 13)%nat
  then cleaned else "".
Proof. destruct s; reflexivity. Qed.

(** The normalizer returns identifiers that satisfy the constraint. *)
Lemma limpiar_isbn_valid (s : string) : valid_identifier (limpiar_isbn s) = true.
Proof.
  rewrite limpiar_isbn_unfold. cbv zeta.
  destruct ((String.length (Str.sub_non_0_9X (Str.upper s)) =? 10)%nat
            || (String.length (Str.sub_non_0_9X (Str.upper s)) =? 13)%nat)
    eqn:Hlen; [|reflexivity].
  unfold valid_identifier. rewrite Hlen, sub_non_0_9X_all.
  now rewrite orb_true_r.
Qed.

(** A valid identifier is left as it is. *)
Lemma limpiar_isbn_fixed (s : string) :
  valid_identifier s = true -> limpiar_isbn s = s.
Proof.
  unfold valid_identifier. intros H.
  destruct s as [|c s]; [reflexivity|].
  simpl Str.truthy in H. simpl negb in H. rewrite orb_false_l in H.
  apply andb_true_iff in H. destruct H as [Hlen Hall].
  rewrite limpiar_isbn_unfold. cbv zeta.
  rewrite (upper_0_9X _ Hall), (sub_non_0_9X_0_9X _ Hall), Hlen. reflexivity.
Qed.

(** The examples of the specification. *)
Lemma limpiar_isbn_examples :
  limpiar_isbn "978-0-13-468599-1" = "9780134685991" /\
  limpiar_isbn "abc" = "" /\
  limpiar_isbn "0-8044-2957-x" = "080442957X".
Proof. repeat split. Qed.

(** C6. The contract of the normalizer: a null or empty input gives the
    empty string; a string is never refused; the result is the input
    upper-cased and stripped of every character other than a digit or [X]
    when that has exactly 10 or 13 characters, and the empty string
    otherwise; the cleaned form consists of the digits of the input and an
    [X] for each [x] or [X], in order. *)
Theorem limpiar_isbn_contract (s : string) :
  limpiar_isbn_dyn JNull = inr "" /\
  limpiar_isbn "" = "" /\
  limpiar_isbn_dyn (JStr s) = inr (limpiar_isbn s) /\
  (let cleaned := Str.sub_non_0_9X (Str.upper s) in
   limpiar_isbn s =
   if (String.length cleaned =? 10)%nat || (String.length cleaned =? 13)%nat
   then cleaned else "") /\
  Str.sub_non_0_9X (Str.upper s) = digits_and_X s.
Proof.
  repeat split.
  - destruct s; reflexivity.
  - apply limpiar_isbn_unfold.
  - apply sub_non_0_9X_upper.
Qed.

(** C9. Normalizing twice is normalizing once. *)
Theorem limpiar_isbn_idempotent (x : string) :
  limpiar_isbn (limpiar_isbn x) = limpiar_isbn x.
Proof. apply limpiar_isbn_fixed, limpiar_isbn_valid. Qed.

(** ** Parsing of a catalog item *)

Lemma entry_of_type_13 (e : identifier_entry) :
  entry_of_type "ISBN_13" e =
  is_isbn_13 (ie_type e) && Str.truthy (opt_or_empty (ie_identifier e)).
Proof. unfold entry_of_type, is_isbn_13. now destruct (ie_type e). Qed.

Lemma entry_of_type_10 (e : identifier_entry) :
  entry_of_type "ISBN_10" e =
  is_isbn_type (ie_type e) && negb (is_isbn_13 (ie_type e))
  && Str.truthy (opt_or_empty (ie_identifier e)).
Proof.
  unfold entry_of_type, is_isbn_type, is_isbn_13.
  destruct (ie_type e) as [t|]; [|reflexivity].
  destruct (String.eqb t "ISBN_13") eqn:H13; simpl;
    [|now rewrite andb_true_r].
  apply String.eqb_eq in H13. subst t. reflexivity.
Qed.

(** The scan returns the first 13-character-kind value; without one, the
    10-character-kind value seen last; without either, the fallback. *)
Lemma _parse_volume_isbn_scan (l : list identifier_entry) :
  forall fallback, _parse_volume_isbn fallback l = scan_last_seen fallback l.
Proof.
  unfold scan_last_seen.
  induction l as [|e l IH]; intros fallback; [reflexivity|].
  cbn [_parse_volume_isbn first_of_type last_of_type].
  rewrite entry_of_type_13, entry_of_type_10.
  assert (is_isbn_13 (ie_type e) = true -> is_isbn_type (ie_type e) = true)
    as H13ty.
  { unfold is_isbn_13, is_isbn_type. destruct (ie_type e); [|discriminate].
    intros ->. reflexivity. }
  destruct (is_isbn_13 (ie_type e)) eqn:H13.
  - rewrite (H13ty eq_refl). cbn [andb negb].
    destruct (Str.truthy (opt_or_empty (ie_identifier e))); [reflexivity|].
    rewrite IH. destruct (first_of_type "ISBN_13" l); [reflexivity|].
    destruct (last_of_type "ISBN_10" l); reflexivity.
  - destruct (is_isbn_type (ie_type e));
      destruct (Str.truthy (opt_or_empty (ie_identifier e)));
      cbn [andb negb]; rewrite IH;
      destruct (first_of_type "ISBN_13" l); try reflexivity;
      destruct (last_of_type "ISBN_10" l); reflexivity.
Qed.

(** C4, as stated, fails: of two 10-character-kind entries the scan keeps the
    second, not the first-seen one. *)
Lemma scan_first_seen_counterexample :
  _parse_volume_isbn "" Samples.two_isbn_10
  <> scan_first_seen "" Samples.two_isbn_10.
Proof. vm_compute. discriminate. Qed.

(** C4, amended. Among the entries flagged [ISBN_13] or [ISBN_10] with a
    non-empty value, the scan returns the first 13-character-kind value
    wherever it stands in the list, and nothing after it is looked at;
    without one it returns the 10-character-kind value seen last (each one
    overwrites the one before); without any recognized entry it returns the
    fallback. *)
Theorem parse_volume_isbn_prefers_13 (fallback : string)
  (l : list identifier_entry) :
  _parse_volume_isbn fallback l = scan_last_seen fallback l /\
  (forall c v l1 l2,
     first_of_type "ISBN_13" l1 = None ->
     _parse_volume_isbn fallback (l1 ++ Samples.isbn13 (String c v) :: l2)
     = String c v)%list /\
  (first_of_type "ISBN_13" l = None ->
   first_of_type "ISBN_10" l = None ->
   _parse_volume_isbn fallback l = fallback).
Proof.
  split; [apply _parse_volume_isbn_scan|]. split.
  - intros c v l1 l2 H1. rewrite _parse_volume_isbn_scan. unfold scan_last_seen.
    assert (first_of_type "ISBN_13" (l1 ++ Samples.isbn13 (String c v) :: l2)%list
            = Some (String c v)) as ->; [|reflexivity].
    induction l1 as [|e l1 IH]; [reflexivity|].
    cbn [app first_of_type] in *.
    destruct (entry_of_type "ISBN_13" e); [discriminate|]. now apply IH.
  - intros H13 H10. rewrite _parse_volume_isbn_scan. unfold scan_last_seen.
    rewrite H13.
    assert (last_of_type "ISBN_10" l = None) as ->; [|reflexivity].
    induction l as [|e l IH]; [reflexivity|].
    cbn [first_of_type last_of_type] in *.
    destruct (entry_of_type "ISBN_13" e); [discriminate|].
    destruct (entry_of_type "ISBN_10" e); [discriminate|].
    now rewrite (IH H13 H10).
Qed.

Lemma parse_volume_isbn_prefers_13_witness :
  _parse_volume_isbn ""
    ([Samples.isbn10 "0441013597"]
       ++ Samples.isbn13 "9780441013593" :: [Samples.isbn10 "0441172717"])%list
  = "9780441013593".
Proof.
  apply (proj1 (proj2 (parse_volume_isbn_prefers_13 "" []))
           "9"%char "780441013593"
           [Samples.isbn10 "0441013597"] [Samples.isbn10 "0441172717"]
           eq_refl).
Defined.

Lemma all_chars_0_9_isdigit (s : string) :
  Str.all_chars Str.is_0_9 s = true -> Str.all_chars Str.chr_isdigit s = true.
Proof.
  induction s as [|c s IH]; cbn [Str.all_chars]; [reflexivity|].
  intros H. apply andb_true_iff in H. destruct H as [Hc Hs].
  rewrite (IH Hs). unfold Str.chr_isdigit. rewrite Hc. reflexivity.
Qed.

Lemma prefix_4_truthy (d : string) :
  (4 <=? String.length d)%nat = true -> Str.truthy (Str.prefix 4 d) = true.
Proof. destruct d; [discriminate|reflexivity]. Qed.

(** The year of a published date: the decimal value of its first four
    characters when they are decimal digits; [ValueError] when they are
    [isdigit] digits that are not all decimal; 0 otherwise. *)
Lemma _parse_volume_anio_cases (d : string) :
  _parse_volume_anio d =
  let first4 := Str.prefix 4 d in
  if (4 <=? String.length d)%nat && Str.all_chars Str.is_0_9 first4
  then inr (Str.decimal_value 0 first4)
  else if (4 <=? String.length d)%nat && Str.isdigit first4
       then inl (Exn "ValueError"
                     ("invalid literal for int() with base 10: '"
                        ++ first4 ++ "'"))
       else inr 0%Z.
Proof.
  unfold _parse_volume_anio, int_of_str. cbv zeta.
  destruct (4 <=? String.length d)%nat eqn:Hlen; [|reflexivity].
  cbn [andb]. rewrite (prefix_4_truthy d Hlen). cbn [andb].
  destruct (Str.all_chars Str.is_0_9 (Str.prefix 4 d)) eqn:Hdec;
    [|reflexivity].
  unfold Str.isdigit. rewrite (all_chars_0_9_isdigit _ Hdec).
  pose proof (prefix_4_truthy d Hlen) as Ht.
  destruct (Str.prefix 4 d); [discriminate|reflexivity].
Qed.

(** The examples of the specification. *)
Lemma _parse_volume_anio_examples :
  _parse_volume_anio "1965-06-01" = inr 1965%Z /\
  _parse_volume_anio "unknown" = inr 0%Z /\
  _parse_volume_anio "" = inr 0%Z.
Proof. repeat split. Qed.

(** C7, at the failing input. The four characters [U+00B2 0 1 9] pass
    [isdigit], and [int] refuses them: no year is produced, and the parsing
    of the item raises. *)
Theorem parse_volume_anio_superscript :
  Str.isdigit (Str.prefix 4 Samples.superscript_date) = true /\
  _parse_volume_anio Samples.superscript_date =
    inl (Exn "ValueError"
             ("invalid literal for int() with base 10: '"
                ++ Str.prefix 4 Samples.superscript_date ++ "'")) /\
  _parse_volume (Samples.dune_volume [] Samples.superscript_date) "" =
    inl (Exn "ValueError"
             ("invalid literal for int() with base 10: '"
                ++ Str.prefix 4 Samples.superscript_date ++ "'")).
Proof. repeat split. Qed.

(** Seen from the caller: the extraction read the title, the catalog
    answered, and the routine returns the error of [int]. *)
Lemma superscript_date_aborts_identification :
  identificar_libro_por_imagen Samples.env_superscript Samples.image [] =
    (inr (None,
          Some ("Error al consultar la IA: "
                  ++ "invalid literal for int() with base 10: '"
                  ++ Str.prefix 4 Samples.superscript_date ++ "'")),
     [EvVision Samples.image; EvBuscar None (Some "Dune") None;
      EvGet (volumes_url ++ "intitle:Dune")]).
Proof. reflexivity. Qed.

(** ** The monad *)

Lemma bind_lift {A B} (r : py A) (k : A -> M B) (log : list event) :
  bind (lift r) k log =
  match r with
  | inr a => k a log
  | inl e => (inl e, log)
  end.
Proof. destruct r; reflexivity. Qed.

Lemma bind_emit {B} (ev : event) (k : unit -> M B) (log : list event) :
  bind (emit ev) k log = k tt (log ++ [ev])%list.
Proof. reflexivity. Qed.

(** ** Equations of the routines *)

(** With a credential, the routine is the extraction followed by the
    resolver and the merge, every exception being turned into an error. *)
Lemma identificar_libro_por_imagen_eq (env : Env) (img : list Byte.byte)
  (log : list event) :
  client env = true ->
  identificar_libro_por_imagen env img log =
  match extraer env img log with
  | (inl e, log1) => (handled e, log1)
  | (inr x, log1) =>
      match buscar_en_google_books env
              (str_or_None (isbn_ia x)) (str_or_None (titulo_ia x))
              (str_or_None (autor_ia x)) log1 with
      | (inl e, log2) => (handled e, log2)
      | (inr gb, log2) => (inr (Some (combinar gb x), None), log2)
      end
  end.
Proof.
  intros Hc. unfold identificar_libro_por_imagen, try_except, bind, handled.
  rewrite Hc. cbn [negb].
  destruct (extraer env img log) as [[e|x] log1];
    [destruct (is_Exception e); reflexivity|].
  destruct (buscar_en_google_books env _ _ _ log1) as [[e|gb] log2];
    [destruct (is_Exception e); reflexivity|reflexivity].
Qed.

(** Without a credential nothing is called. *)
Lemma identificar_libro_por_imagen_no_client (env : Env)
  (img : list Byte.byte) (log : list event) :
  client env = false ->
  identificar_libro_por_imagen env img log =
  (inr (None, Some "OPENAI_API_KEY no configurada en el entorno."), log).
Proof.
  intros Hc. unfold identificar_libro_por_imagen. rewrite Hc. reflexivity.
Qed.

Lemma buscar_en_google_books_eq (env : Env) (i t a : option string)
  (log : list event) :
  buscar_en_google_books env i t a log =
  match buscar_por_isbn env i (log ++ [EvBuscar i t a])%list with
  | (inl e, log1) => (inl e, log1)
  | (inr (Some gb), log1) => (inr (Some gb), log1)
  | (inr None, log1) => buscar_por_texto env i t a log1
  end.
Proof.
  unfold buscar_en_google_books. rewrite bind_emit. unfold bind.
  destruct (buscar_por_isbn env i _) as [[e|[gb|]] log1]; reflexivity.
Qed.

(** The extraction step logs the vision call and nothing else. *)
Lemma extraer_log (env : Env) (img : list Byte.byte) (log log1 : list event)
  (r : py extraccion) :
  extraer env img log = (r, log1) -> log1 = (log ++ [EvVision img])%list.
Proof.
  unfold extraer. rewrite bind_emit.
  repeat (rewrite bind_lift;
          match goal with
          | |- context [match ?r with inl _ => _ | inr _ => _ end] =>
              destruct r
          end; [now intros [= _ <-]|]).
  now intros [= _ <-].
Qed.

(** The identifier of an extraction went through the normalizer. *)
Lemma limpiar_isbn_dyn_valid (v : json) (s : string) :
  limpiar_isbn_dyn v = inr s -> valid_identifier s = true.
Proof.
  unfold limpiar_isbn_dyn.
  destruct (Json.truthy v); cbn [negb].
  - destruct v; try discriminate. intros [= <-]. apply limpiar_isbn_valid.
  - intros [= <-]. reflexivity.
Qed.

Lemma extraer_isbn_valid (env : Env) (img : list Byte.byte)
  (log log1 : list event) (x : extraccion) :
  extraer env img log = (inr x, log1) -> valid_identifier (isbn_ia x) = true.
Proof.
  unfold extraer. rewrite bind_emit.
  do 3 (rewrite bind_lift;
        match goal with
        | |- context [match ?r with inl _ => _ | inr _ => _ end] =>
            destruct r
        end; [discriminate|]).
  rewrite bind_lift.
  match goal with
  | |- context [limpiar_isbn_dyn ?v] =>
      destruct (limpiar_isbn_dyn v) as [e|s] eqn:Hs
  end; [discriminate|].
  repeat (rewrite bind_lift;
          match goal with
          | |- context [match ?r with inl _ => _ | inr _ => _ end] =>
              destruct r
          end; [discriminate|]).
  intros [= <- _]. cbn [isbn_ia]. exact (limpiar_isbn_dyn_valid _ _ Hs).
Qed.

(** ** The resolver without hints *)

(** Without a usable hint the resolver returns [None] and only logs its own
    call. *)
Lemma buscar_en_google_books_nothing_to_query (env : Env)
  (isbn titulo autor : option string) (log : list event) :
  limpiar_isbn (opt_or_empty isbn) = "" ->
  opt_truthy titulo = false ->
  opt_truthy autor = false ->
  buscar_en_google_books env isbn titulo autor log =
  (inr None, (log ++ [EvBuscar isbn titulo autor])%list).
Proof.
  intros Hi Ht Ha. rewrite buscar_en_google_books_eq.
  unfold buscar_por_isbn. rewrite Hi. cbn [Str.truthy].
  assert ((if opt_truthy isbn then @ret (option libro) None else ret None)
          = ret None) as -> by now destruct (opt_truthy isbn).
  cbn [ret]. unfold buscar_por_texto, q_parts. rewrite Ht, Ha. reflexivity.
Qed.

(** C8. With an identifier hint that is absent, empty or normalizes to the
    empty string, and with neither a title nor an author, the resolver
    returns [None]; it does not raise, and its call is the only event added
    to the log: no request is issued. *)
Theorem buscar_en_google_books_no_hints (env : Env)
  (isbn titulo autor : option string) (log : list event) :
  limpiar_isbn (opt_or_empty isbn) = "" ->
  opt_truthy titulo = false ->
  opt_truthy autor = false ->
  buscar_en_google_books env isbn titulo autor log =
    (inr None, (log ++ [EvBuscar isbn titulo autor])%list) /\
  filter is_get_event (log ++ [EvBuscar isbn titulo autor])%list =
    filter is_get_event log.
Proof.
  intros Hi Ht Ha. split.
  - now apply buscar_en_google_books_nothing_to_query.
  - rewrite filter_app. cbn [filter is_get_event]. apply app_nil_r.
Qed.

Lemma buscar_en_google_books_no_hints_witness :
  buscar_en_google_books Samples.env_timeout (Some "abc") None (Some "") [] =
  (inr None, [EvBuscar (Some "abc") None (Some "")]).
Proof.
  apply (proj1 (buscar_en_google_books_no_hints
                  Samples.env_timeout (Some "abc") None (Some "") []
                  eq_refl eq_refl eq_refl)).
Defined.

(** ** Failure of the extraction *)

(** The extraction step is the vision call, the decoding of its content
    and the reading of the fields, and logs the vision call. *)
Lemma extraer_eq (env : Env) (img : list Byte.byte) (log : list event) :
  extraer env img log =
  (match chat_create env img with
   | inl e => inl e
   | inr content =>
       match json_loads env (str_or (opt_or_empty content) "{}") with
       | inl e => inl e
       | inr ia => leer_campos ia
       end
   end, (log ++ [EvVision img])%list).
Proof.
  unfold extraer, leer_campos. rewrite bind_emit.
  repeat (rewrite bind_lift;
          match goal with
          | |- context [match ?r with inl _ => _ | inr _ => _ end] =>
              destruct r
          end; [reflexivity|]).
  reflexivity.
Qed.

(** The extraction step raises exactly in the ways of [extraction_fails]. *)
Lemma extraction_fails_iff (env : Env) (img : list Byte.byte)
  (log : list event) (e : exn) :
  extraction_fails env img e <->
  extraer env img log = (inl e, (log ++ [EvVision img])%list).
Proof.
  rewrite extraer_eq. split.
  - intros [Hv | content Hv Hj | content ia Hv Hj Hf].
    + now rewrite Hv.
    + now rewrite Hv, Hj.
    + now rewrite Hv, Hj, Hf.
  - destruct (chat_create env img) as [e1|content] eqn:Hv.
    + intros [= ->]. now apply vision_raises.
    + destruct (json_loads env _) as [e1|ia] eqn:Hj.
      * intros [= ->]. now apply (payload_unparseable env img e content).
      * intros [= Hf]. now apply (fields_unreadable env img e content ia).
Qed.

(** C5. When the extraction stage fails - the vision call raises, its
    payload does not decode, or the fields of the payload cannot be read -
    with an exception that [except Exception] catches, the routine returns
    no record and an error message, and the log gains the vision call only:
    the resolver is not called and no request is issued. *)
Theorem extraction_failure_is_reported (env : Env) (img : list Byte.byte)
  (log : list event) (e : exn) :
  client env = true ->
  extraction_fails env img e ->
  is_Exception e = true ->
  identificar_libro_por_imagen env img log =
    (inr (None, Some ("Error al consultar la IA: " ++ exn_text e)),
     (log ++ [EvVision img])%list) /\
  filter is_catalog_event (log ++ [EvVision img])%list
  = filter is_catalog_event log.
Proof.
  intros Hc Hf He. split.
  - rewrite (identificar_libro_por_imagen_eq env img log Hc).
    rewrite (proj1 (extraction_fails_iff env img log e) Hf).
    unfold handled. rewrite He. reflexivity.
  - rewrite filter_app. cbn [filter is_catalog_event]. apply app_nil_r.
Qed.

Lemma extraction_failure_is_reported_witness :
  identificar_libro_por_imagen Samples.env_vision_down Samples.image [] =
    (inr (None,
          Some "Error al consultar la IA: Error code: 429 - rate limit exceeded"),
     [EvVision Samples.image]).
Proof.
  apply (proj1 (extraction_failure_is_reported
                  Samples.env_vision_down Samples.image []
                  Samples.rate_limit eq_refl
                  (vision_raises Samples.env_vision_down Samples.image
                     Samples.rate_limit eq_refl)
                  eq_refl)).
Defined.

(** An exception of the extraction stage that [except Exception] does not
    catch leaves the routine; the resolver is not called either. *)
Lemma extraction_interrupt_propagates (env : Env) (img : list Byte.byte)
  (log : list event) (e : exn) :
  client env = true ->
  extraction_fails env img e ->
  is_Exception e = false ->
  identificar_libro_por_imagen env img log =
    (inl e, (log ++ [EvVision img])%list).
Proof.
  intros Hc Hf He.
  rewrite (identificar_libro_por_imagen_eq env img log Hc).
  rewrite (proj1 (extraction_fails_iff env img log e) Hf).
  unfold handled. rewrite He. reflexivity.
Qed.

Lemma keyboard_interrupt_propagates :
  identificar_libro_por_imagen Samples.env_interrupt Samples.image [] =
    (inl (Exn "KeyboardInterrupt" ""), [EvVision Samples.image]).
Proof. reflexivity. Qed.

(** The two failures the specification names make the extraction raise. *)
Lemma extraer_vision_raises (env : Env) (img : list Byte.byte)
  (log : list event) (e : exn) :
  chat_create env img = inl e ->
  extraer env img log = (inl e, (log ++ [EvVision img])%list).
Proof.
  intros H. unfold extraer. rewrite bind_emit, bind_lift, H. reflexivity.
Qed.

Lemma extraer_payload_unparseable (env : Env) (img : list Byte.byte)
  (log : list event) (content : option string) (e : exn) :
  chat_create env img = inr content ->
  json_loads env (str_or (opt_or_empty content) "{}") = inl e ->
  extraer env img log = (inl e, (log ++ [EvVision img])%list).
Proof.
  intros Hc Hj. unfold extraer.
  rewrite bind_emit, bind_lift, Hc, bind_lift, Hj. reflexivity.
Qed.

(** ** The empty payload *)

(** C10. When the content of the vision response is absent or is the text of
    the empty object, every extracted field takes its default, the resolver
    is called without hints and issues no request, and the routine returns
    the all-empty record and no error. *)
Theorem empty_payload_is_empty_record (env : Env) (img : list Byte.byte)
  (log : list event) (content : option string) :
  client env = true ->
  chat_create env img = inr content ->
  content = None \/ content = Some "{}" ->
  json_loads env "{}" = inr (JObj []) ->
  extraer env img log =
    (inr (Extraccion "" "" "" (JNum 0) ""), (log ++ [EvVision img])%list) /\
  identificar_libro_por_imagen env img log =
    (inr (Some (Libro "" "" "" (JNum 0) ""), None),
     (log ++ [EvVision img; EvBuscar None None None])%list).
Proof.
  intros Hc Hv Hcontent Hj.
  assert (extraer env img log =
          (inr (Extraccion "" "" "" (JNum 0) ""), (log ++ [EvVision img])%list))
    as Hx.
  { unfold extraer. rewrite bind_emit, bind_lift, Hv.
    assert (str_or (opt_or_empty content) "{}" = "{}") as ->
        by (destruct Hcontent as [-> | ->]; reflexivity).
    rewrite bind_lift, Hj. reflexivity. }
  split; [exact Hx|].
  rewrite (identificar_libro_por_imagen_eq env img log Hc), Hx.
  cbn [isbn_ia titulo_ia autor_ia str_or_None Str.truthy].
  rewrite (buscar_en_google_books_nothing_to_query env None None None);
    try reflexivity.
  cbn [combinar]. rewrite <- app_assoc. reflexivity.
Qed.

Lemma empty_payload_is_empty_record_witness :
  identificar_libro_por_imagen Samples.env_empty Samples.image [] =
    (inr (Some (Libro "" "" "" (JNum 0) ""), None),
     [EvVision Samples.image; EvBuscar None None None]).
Proof.
  apply (proj2 (empty_payload_is_empty_record
                  Samples.env_empty Samples.image [] None
                  eq_refl eq_refl (or_introl eq_refl) eq_refl)).
Defined.

(** ** Candidates of the resolver *)

Lemma bind_get {B} (env : Env) (url : string) (k : response -> M B)
  (log : list event) :
  bind (get env url) k log =
  match requests_get env url with
  | inr r => k r (log ++ [EvGet url])%list
  | inl e => (inl e, (log ++ [EvGet url])%list)
  end.
Proof.
  unfold get, bind, emit, lift. destruct (requests_get env url); reflexivity.
Qed.

Lemma buscar_por_isbn_candidate (env : Env) (i : option string)
  (log log' : list event) (gb : libro) :
  buscar_por_isbn env i log = (inr (Some gb), log') -> candidate_of env i gb.
Proof.
  unfold buscar_por_isbn, candidate_of.
  destruct (opt_truthy i); [|discriminate].
  destruct (Str.truthy (limpiar_isbn (opt_or_empty i))); [|discriminate].
  rewrite bind_get.
  destruct (requests_get env _) as [e|r] eqn:Hr; [discriminate|].
  destruct (status_code r =? 200)%Z; [|discriminate].
  rewrite bind_lift. destruct (json_body r) as [e|data] eqn:Hd; [discriminate|].
  destruct (first_item data) as [vol|] eqn:Hf; [|discriminate].
  rewrite bind_lift.
  destruct (_parse_volume vol _) as [e|gb'] eqn:Hp; [discriminate|].
  destruct (has_titulo_or_autor gb') eqn:Hta; [|discriminate].
  intros [= <- _]. eauto 10.
Qed.

Lemma buscar_por_texto_candidate (env : Env) (i t a : option string)
  (log log' : list event) (gb : libro) :
  buscar_por_texto env i t a log = (inr (Some gb), log') ->
  candidate_of env i gb.
Proof.
  unfold buscar_por_texto, candidate_of.
  destruct (q_parts t a) as [|p ps]; [discriminate|].
  rewrite bind_get.
  destruct (requests_get env _) as [e|r] eqn:Hr; [discriminate|].
  destruct (status_code r =? 200)%Z; cbn [negb]; [|discriminate].
  rewrite bind_lift. destruct (json_body r) as [e|data] eqn:Hd; [discriminate|].
  destruct (first_item data) as [vol|] eqn:Hf; [|discriminate].
  rewrite bind_lift.
  destruct (_parse_volume vol _) as [e|gb'] eqn:Hp; [discriminate|].
  destruct (has_titulo_or_autor gb') eqn:Hta; [|discriminate].
  intros [= <- _]. eauto 10.
Qed.

Lemma buscar_en_google_books_candidate (env : Env) (i t a : option string)
  (log log' : list event) (gb : libro) :
  buscar_en_google_books env i t a log = (inr (Some gb), log') ->
  candidate_of env i gb.
Proof.
  rewrite buscar_en_google_books_eq.
  destruct (buscar_por_isbn env i _) as [[e|[gb1|]] log1] eqn:H1.
  - discriminate.
  - intros [= <- _]. exact (buscar_por_isbn_candidate _ _ _ _ _ H1).
  - apply buscar_por_texto_candidate.
Qed.

(** The fields of a parsed item. *)
Lemma _parse_volume_fields (vol : volume) (fallback : string) (gb : libro) :
  _parse_volume vol fallback = inr gb ->
  isbn gb = _parse_volume_isbn fallback (idents_of vol) /\
  exists n, _parse_volume_anio (pub_date_of vol) = inr n /\ anio gb = JNum n.
Proof.
  unfold _parse_volume, idents_of, pub_date_of.
  destruct (volumeInfo vol) as [info|]; cbn [no_info industryIdentifiers publishedDate].
  - destruct (_parse_volume_anio (opt_or_empty (publishedDate info)));
      [discriminate|].
    intros [= <-]. cbn [isbn anio]. eauto.
  - cbn [opt_or_empty]. destruct (_parse_volume_anio ""); [discriminate|].
    intros [= <-]. cbn [isbn anio]. eauto.
Qed.

Lemma _parse_volume_total (vol : volume) (fallback : string) :
  date_parses vol = true -> exists gb, _parse_volume vol fallback = inr gb.
Proof.
  unfold date_parses, _parse_volume, pub_date_of.
  destruct (volumeInfo vol) as [info|]; cbn [no_info publishedDate opt_or_empty].
  - destruct (_parse_volume_anio (opt_or_empty (publishedDate info)));
      [discriminate|eauto].
  - destruct (_parse_volume_anio ""); [discriminate|eauto].
Qed.

(** ** The merge *)

(** C1. When the extraction succeeds and the resolver returns a candidate,
    the routine returns a record and no error; its identifier, title, author
    and publisher are the candidate's where these are non-empty and the
    extraction's otherwise; its year is the candidate's when non-zero, else
    the extraction's when that is non-zero, else 0. *)
Theorem merge_catalog_wins (env : Env) (img : list Byte.byte)
  (log log1 log2 : list event) (x : extraccion) (gb : libro) :
  client env = true ->
  extraer env img log = (inr x, log1) ->
  buscar_en_google_books env
    (str_or_None (isbn_ia x)) (str_or_None (titulo_ia x))
    (str_or_None (autor_ia x)) log1 = (inr (Some gb), log2) ->
  exists final,
    identificar_libro_por_imagen env img log = (inr (Some final, None), log2) /\
    isbn final = (if String.eqb (isbn gb) "" then isbn_ia x else isbn gb) /\
    titulo final = (if String.eqb (titulo gb) "" then titulo_ia x else titulo gb) /\
    autor final = (if String.eqb (autor gb) "" then autor_ia x else autor gb) /\
    editorial final =
      (if String.eqb (editorial gb) "" then editorial_ia x else editorial gb) /\
    exists n,
      anio gb = JNum n /\
      anio final =
        if (n =? 0)%Z
        then (if Json.truthy (anio_ia x) then anio_ia x else JNum 0)
        else JNum n.
Proof.
  intros Hc Hx Hgb.
  exists (combinar (Some gb) x).
  rewrite (identificar_libro_por_imagen_eq env img log Hc), Hx, Hgb.
  split; [reflexivity|]. cbn [combinar isbn titulo autor editorial anio].
  assert (forall a b, str_or a b = if String.eqb a "" then b else a) as Hor
      by (intros [|c a] b; reflexivity).
  rewrite !Hor. repeat (split; [reflexivity|]).
  destruct (buscar_en_google_books_candidate _ _ _ _ _ _ _ Hgb)
    as (url & r & data & vol & _ & _ & _ & Hp & _).
  destruct (_parse_volume_fields _ _ _ Hp) as (_ & n & _ & Hn).
  exists n. split; [exact Hn|]. rewrite Hn. unfold Json.or_.
  cbn [Json.truthy]. destruct (n =? 0)%Z eqn:Hz; cbn [negb]; [reflexivity|].
  cbn [Json.truthy]. rewrite Hz. reflexivity.
Qed.

(** The example of the specification: the vision service reads the title
    only, the catalog knows every field, and the final record is the
    catalog's. *)
Lemma merge_catalog_wins_witness :
  exists final,
    identificar_libro_por_imagen Samples.env_dune Samples.image [] =
      (inr (Some final, None),
       [EvVision Samples.image; EvBuscar None (Some "Dune") None;
        EvGet (volumes_url ++ "intitle:Dune")]) /\
    isbn final = "9780441013593" /\
    titulo final = "Dune" /\
    autor final = "Frank Herbert" /\
    editorial final = "Ace" /\
    anio final = JNum 1965.
Proof.
  destruct (merge_catalog_wins
              Samples.env_dune Samples.image []
              [EvVision Samples.image]
              [EvVision Samples.image; EvBuscar None (Some "Dune") None;
               EvGet (volumes_url ++ "intitle:Dune")]
              (Extraccion "" "Dune" "" (JNum 0) "")
              (Libro "9780441013593" "Dune" "Frank Herbert" (JNum 1965) "Ace")
              eq_refl eq_refl eq_refl)
    as (final & Hrun & Hi & Ht & Ha & He & n & Hn & Hy).
  exists final. repeat (split; [assumption|]).
  injection Hn as <-. exact Hy.
Defined.

(** ** Failures of the catalog *)

(** C2, at the failing input. The extraction succeeded and read the title;
    the request of the text tier timed out; the exception left the resolver
    and the routine returns no record and an error that names the vision
    service. *)
Theorem catalog_timeout_is_surfaced :
  extraer Samples.env_timeout Samples.image [] =
    (inr (Extraccion "" "Dune" "" (JNum 0) ""), [EvVision Samples.image]) /\
  buscar_en_google_books Samples.env_timeout None (Some "Dune") None
    [EvVision Samples.image] =
    (inl Samples.read_timeout,
     [EvVision Samples.image; EvBuscar None (Some "Dune") None;
      EvGet (volumes_url ++ "intitle:Dune")]) /\
  identificar_libro_por_imagen Samples.env_timeout Samples.image [] =
    (inr (None,
          Some ("Error al consultar la IA: " ++ exn_text Samples.read_timeout)),
     [EvVision Samples.image; EvBuscar None (Some "Dune") None;
      EvGet (volumes_url ++ "intitle:Dune")]).
Proof. repeat split. Qed.

Lemma buscar_por_isbn_returns (env : Env) (i : option string)
  (log : list event) :
  catalog_answers env ->
  exists gb log', buscar_por_isbn env i log = (inr gb, log').
Proof.
  intros Hcat. unfold buscar_por_isbn.
  destruct (opt_truthy i); [|unfold ret; eauto].
  destruct (Str.truthy (limpiar_isbn (opt_or_empty i))); [|unfold ret; eauto].
  rewrite bind_get.
  destruct (Hcat (volumes_url ++ "isbn:" ++ limpiar_isbn (opt_or_empty i)))
    as (r & -> & H200).
  destruct (status_code r =? 200)%Z eqn:Hs; [|unfold ret; eauto].
  apply Z.eqb_eq in Hs. destruct (H200 Hs) as (data & Hd & Hvol).
  rewrite bind_lift, Hd.
  destruct (first_item data) as [vol|] eqn:Hf; [|unfold ret; eauto].
  assert (date_parses vol = true) as Hdate
      by (apply Hvol; first [exact Hf | reflexivity]).
  destruct (_parse_volume_total vol (limpiar_isbn (opt_or_empty i)) Hdate)
    as [gb Hgb].
  rewrite bind_lift, Hgb.
  destruct (has_titulo_or_autor gb); unfold ret; eauto.
Qed.

Lemma buscar_por_texto_returns (env : Env) (i t a : option string)
  (log : list event) :
  catalog_answers env ->
  exists gb log', buscar_por_texto env i t a log = (inr gb, log').
Proof.
  intros Hcat. unfold buscar_por_texto.
  destruct (q_parts t a) as [|p ps]; [unfold ret; eauto|].
  rewrite bind_get.
  destruct (Hcat (volumes_url ++ Str.join "+" (p :: ps))) as (r & -> & H200).
  destruct (status_code r =? 200)%Z eqn:Hs; cbn [negb]; [|unfold ret; eauto].
  apply Z.eqb_eq in Hs. destruct (H200 Hs) as (data & Hd & Hvol).
  rewrite bind_lift, Hd.
  destruct (first_item data) as [vol|] eqn:Hf; [|unfold ret; eauto].
  assert (date_parses vol = true) as Hdate
      by (apply Hvol; first [exact Hf | reflexivity]).
  destruct (_parse_volume_total vol (limpiar_isbn (opt_or_empty i)) Hdate)
    as [gb Hgb].
  rewrite bind_lift, Hgb.
  destruct (has_titulo_or_autor gb); unfold ret; eauto.
Qed.

(** With a catalog that answers, the resolver returns: a candidate or
    [None], whatever the statuses and the result lists. *)
Lemma buscar_en_google_books_returns (env : Env) (i t a : option string)
  (log : list event) :
  catalog_answers env ->
  exists gb log', buscar_en_google_books env i t a log = (inr gb, log').
Proof.
  intros Hcat. rewrite buscar_en_google_books_eq.
  destruct (buscar_por_isbn_returns env i (log ++ [EvBuscar i t a])%list Hcat)
    as (gb1 & log1 & ->).
  destruct gb1 as [gb1|]; [eauto|].
  apply buscar_por_texto_returns, Hcat.
Qed.

(** What the routine does hold to: with a catalog that answers, a status
    other than 200, an absent or empty result list and a candidate without
    title and author are no errors, and the record is the merge of the
    extraction with what the resolver returned. *)
Lemma catalog_answers_gives_record (env : Env) (img : list Byte.byte)
  (log log1 : list event) (x : extraccion) :
  client env = true ->
  extraer env img log = (inr x, log1) ->
  catalog_answers env ->
  exists gb log2,
    buscar_en_google_books env
      (str_or_None (isbn_ia x)) (str_or_None (titulo_ia x))
      (str_or_None (autor_ia x)) log1 = (inr gb, log2) /\
    identificar_libro_por_imagen env img log =
      (inr (Some (combinar gb x), None), log2).
Proof.
  intros Hc Hx Hcat.
  destruct (buscar_en_google_books_returns env
              (str_or_None (isbn_ia x)) (str_or_None (titulo_ia x))
              (str_or_None (autor_ia x)) log1 Hcat) as (gb & log2 & Hgb).
  exists gb, log2. split; [exact Hgb|].
  rewrite (identificar_libro_por_imagen_eq env img log Hc), Hx, Hgb.
  reflexivity.
Qed.

Lemma env_unavailable_answers : catalog_answers Samples.env_unavailable.
Proof.
  intros url. eexists. split; [reflexivity|]. cbn [status_code]. discriminate.
Qed.

(** A catalog that answers 503 to every request leaves the extraction as
    the record. *)
Lemma unavailable_catalog_gives_record :
  identificar_libro_por_imagen Samples.env_unavailable Samples.image [] =
    (inr (Some (Libro "" "Dune" "" (JNum 0) ""), None),
     [EvVision Samples.image; EvBuscar None (Some "Dune") None;
      EvGet (volumes_url ++ "intitle:Dune")]).
Proof. reflexivity. Qed.

(** ** The identifier constraint *)

(** C3, as stated, fails: the catalog serves a hyphenated identifier, and the
    candidate and the final record carry it as it is. *)
Lemma hyphenated_identifier_counterexample :
  let gb := Libro "978-0-441-01359-3" "Dune" "Frank Herbert" (JNum 1965) "Ace" in
  let log := [EvVision Samples.image; EvBuscar None (Some "Dune") None;
              EvGet (volumes_url ++ "intitle:Dune")] in
  buscar_en_google_books Samples.env_hyphen None (Some "Dune") None
    [EvVision Samples.image] = (inr (Some gb), log) /\
  identificar_libro_por_imagen Samples.env_hyphen Samples.image [] =
    (inr (Some gb, None), log) /\
  valid_identifier (isbn gb) = false.
Proof. repeat split. Qed.

Lemma _parse_volume_isbn_valid (l : list identifier_entry) :
  forall fallback,
    valid_identifier fallback = true ->
    forallb (fun e =>
               negb (is_isbn_type (ie_type e))
               || valid_identifier (opt_or_empty (ie_identifier e))) l = true ->
    valid_identifier (_parse_volume_isbn fallback l) = true.
Proof.
  induction l as [|e l IH]; intros fallback Hfb Hl; [exact Hfb|].
  cbn [forallb] in Hl. apply andb_true_iff in Hl. destruct Hl as [He Hl].
  cbn [_parse_volume_isbn].
  destruct (is_isbn_type (ie_type e)); cbn [negb orb andb] in *.
  - destruct (Str.truthy (opt_or_empty (ie_identifier e))).
    + destruct (is_isbn_13 (ie_type e)); [exact He|now apply IH].
    + now apply IH.
  - now apply IH.
Qed.

Lemma candidate_identifier_valid (env : Env) (i : option string) (gb : libro) :
  catalog_identifiers_valid env ->
  candidate_of env i gb ->
  valid_identifier (isbn gb) = true.
Proof.
  intros Hcat (url & r & data & vol & Hr & Hd & Hf & Hp & _).
  destruct (_parse_volume_fields _ _ _ Hp) as [-> _].
  apply _parse_volume_isbn_valid; [apply limpiar_isbn_valid|].
  exact (Hcat url r data vol Hr Hd Hf).
Qed.

(** C3, amended. The identifier of an extraction and the fallback of the
    resolver went through the normalizer; the identifier of a catalog entry
    is copied as the catalog gives it.  So, when the entries flagged
    [ISBN_13] or [ISBN_10] of the items the catalog serves satisfy the
    constraint, the identifier of every candidate and of every final record
    is empty or has exactly 10 or 13 characters among the digits and [X]. *)
Theorem identifier_constraint (env : Env) :
  catalog_identifiers_valid env ->
  (forall i t a log gb log',
     buscar_en_google_books env i t a log = (inr (Some gb), log') ->
     valid_identifier (isbn gb) = true) /\
  (forall img log final err log',
     identificar_libro_por_imagen env img log = (inr (Some final, err), log') ->
     valid_identifier (isbn final) = true).
Proof.
  intros Hcat. split.
  - intros i t a log gb log' Hgb.
    exact (candidate_identifier_valid env i gb Hcat
             (buscar_en_google_books_candidate _ _ _ _ _ _ _ Hgb)).
  - intros img log final err log'.
    destruct (client env) eqn:Hc.
    + rewrite (identificar_libro_por_imagen_eq env img log Hc).
      destruct (extraer env img log) as [[e|x] log1] eqn:Hx;
        [unfold handled, error_ia; destruct (is_Exception e); discriminate|].
      destruct (buscar_en_google_books env _ _ _ log1) as [[e|gb] log2] eqn:Hgb;
        [unfold handled, error_ia; destruct (is_Exception e); discriminate|].
      intros [= <- _ _].
      pose proof (extraer_isbn_valid _ _ _ _ _ Hx) as Hia.
      destruct gb as [gb|]; cbn [combinar isbn]; [|exact Hia].
      unfold str_or. destruct (Str.truthy (isbn gb)); [|exact Hia].
      exact (candidate_identifier_valid env _ gb Hcat
               (buscar_en_google_books_candidate _ _ _ _ _ _ _ Hgb)).
    + rewrite (identificar_libro_por_imagen_no_client env img log Hc).
      discriminate.
Qed.

Lemma env_dune_identifiers_valid : catalog_identifiers_valid Samples.env_dune.
Proof.
  intros url r data vol Hr Hd Hf.
  cbn in Hr. injection Hr as <-. cbn in Hd. injection Hd as <-.
  cbn in Hf. injection Hf as <-. reflexivity.
Qed.

Lemma identifier_constraint_witness :
  valid_identifier
    (isbn (Libro "9780441013593" "Dune" "Frank Herbert" (JNum 1965) "Ace"))
  = true.
Proof.
  apply (proj2 (identifier_constraint Samples.env_dune
                  env_dune_identifiers_valid)
           Samples.image []
           (Libro "9780441013593" "Dune" "Frank Herbert" (JNum 1965) "Ace")
           None
           [EvVision Samples.image; EvBuscar None (Some "Dune") None;
            EvGet (volumes_url ++ "intitle:Dune")]
           eq_refl).
Defined.

(** * Further properties *)

(** ** The normalizer *)

Lemma digits_and_X_all (s : string) :
  Str.all_chars Str.is_0_9X (digits_and_X s) = true.
Proof. rewrite <- sub_non_0_9X_upper. apply sub_non_0_9X_all. Qed.

(** X1. The result of the normalizer depends on the digits and the letters
    [x], [X] of its argument only: separators, other letters and the case of
    [x] make no difference.  Its length is 0, 10 or 13. *)
Theorem limpiar_isbn_ignores_separators (a b : string) :
  digits_and_X a = digits_and_X b ->
  limpiar_isbn a = limpiar_isbn b /\
  (String.length (limpiar_isbn a) = 0
   \/ String.length (limpiar_isbn a) = 10
   \/ String.length (limpiar_isbn a) = 13)%nat.
Proof.
  intros Hab. split.
  - rewrite !limpiar_isbn_unfold. cbv zeta.
    now rewrite !sub_non_0_9X_upper, Hab.
  - rewrite limpiar_isbn_unfold. cbv zeta.
    destruct (String.length (Str.sub_non_0_9X (Str.upper a)) =? 10)%nat eqn:H10.
    + apply Nat.eqb_eq in H10. cbn [orb]. auto.
    + cbn [orb].
      destruct (String.length (Str.sub_non_0_9X (Str.upper a)) =? 13)%nat
        eqn:H13; [apply Nat.eqb_eq in H13|]; auto.
Qed.

Lemma limpiar_isbn_ignores_separators_witness :
  limpiar_isbn "isbn 0-8044-2957-x" = limpiar_isbn "080442957X" /\
  (String.length (limpiar_isbn "isbn 0-8044-2957-x") = 0
   \/ String.length (limpiar_isbn "isbn 0-8044-2957-x") = 10
   \/ String.length (limpiar_isbn "isbn 0-8044-2957-x") = 13)%nat.
Proof.
  apply (limpiar_isbn_ignores_separators
           "isbn 0-8044-2957-x" "080442957X" eq_refl).
Defined.

(** ** The year of a published date *)

Lemma is_0_9_ord (c : ascii) :
  Str.is_0_9 c = true -> (48 <= Z.of_N (Str.ord c) <= 57)%Z.
Proof.
  unfold Str.is_0_9. intros H. apply andb_true_iff in H.
  destruct H as [H1 H2]. apply N.leb_le in H1, H2. lia.
Qed.

Lemma decimal_value_nil (acc : Z) : Str.decimal_value acc "" = acc.
Proof. reflexivity. Qed.

Lemma decimal_value_cons (acc : Z) (c : ascii) (s : string) :
  Str.decimal_value acc (String c s) =
  Str.decimal_value (10 * acc + (Z.of_N (Str.ord c) - 48)) s.
Proof. reflexivity. Qed.

Lemma prefix_prefix (n : nat) (s : string) :
  Str.prefix n (Str.prefix n s) = Str.prefix n s.
Proof.
  revert s. induction n as [|n IH]; intros [|c s]; cbn [Str.prefix];
    try reflexivity.
  now rewrite IH.
Qed.

Lemma prefix_length (n : nat) (s : string) :
  (n <=? String.length (Str.prefix n s))%nat = (n <=? String.length s)%nat.
Proof.
  revert s. induction n as [|n IH]; intros [|c s]; cbn; try reflexivity.
  apply IH.
Qed.

(** A year that is read lies between 0 and 9999. *)
Lemma _parse_volume_anio_bounds (pub_date : string) :
  forall n, _parse_volume_anio pub_date = inr n -> (0 <= n <= 9999)%Z.
Proof.
  intros n. rewrite _parse_volume_anio_cases. cbv zeta.
  destruct (4 <=? String.length pub_date)%nat eqn:Hlen; cbn [andb].
  - destruct (Str.all_chars Str.is_0_9 (Str.prefix 4 pub_date)) eqn:Hd.
    + destruct pub_date as [|c1 [|c2 [|c3 [|c4 rest]]]]; try discriminate.
      cbn [Str.prefix Str.all_chars] in *.
      repeat (apply andb_true_iff in Hd; destruct Hd as [?H Hd]).
      repeat match goal with
             | H : Str.is_0_9 _ = true |- _ => apply is_0_9_ord in H
             end.
      intros Hn.
      assert (n = Str.decimal_value 0
                    (String c1 (String c2 (String c3 (String c4 "")))))
        as -> by congruence.
      rewrite !decimal_value_cons, decimal_value_nil. lia.
    + destruct (Str.isdigit (Str.prefix 4 pub_date)); [discriminate|].
      intros Hn. assert (n = 0%Z) as -> by congruence. lia.
  - intros Hn. assert (n = 0%Z) as -> by congruence. lia.
Qed.

(** X2. The year read from a published date depends on its first four
    characters only, and a year that is read lies between 0 and 9999. *)
Theorem parse_volume_anio_range (pub_date : string) :
  _parse_volume_anio pub_date = _parse_volume_anio (Str.prefix 4 pub_date) /\
  (forall anio, _parse_volume_anio pub_date = inr anio ->
                (0 <= anio <= 9999)%Z).
Proof.
  split.
  - unfold _parse_volume_anio.
    now rewrite prefix_prefix, prefix_length.
  - apply _parse_volume_anio_bounds.
Qed.

Lemma parse_volume_anio_range_witness : (0 <= 1965 <= 9999)%Z.
Proof.
  apply (proj2 (parse_volume_anio_range "1965-06-01") 1965%Z eq_refl).
Defined.

(** ** White space *)

Lemma lstrip_starts (s : string) : starts_with_space (Str.lstrip s) = false.
Proof.
  induction s as [|c s IH]; [reflexivity|]. cbn [Str.lstrip].
  destruct (Str.chr_isspace c) eqn:Hc; [exact IH|]. cbn. exact Hc.
Qed.

Lemma rstrip_starts (s : string) :
  starts_with_space s = false -> starts_with_space (Str.rstrip s) = false.
Proof.
  destruct s as [|c s]; [reflexivity|]. cbn [starts_with_space Str.rstrip].
  intros Hc. destruct (Str.rstrip s); [rewrite Hc|]; cbn; auto.
Qed.

Lemma rstrip_ends (s : string) : ends_with_space (Str.rstrip s) = false.
Proof.
  induction s as [|c s IH]; [reflexivity|]. cbn [Str.rstrip].
  destruct (Str.rstrip s) as [|d r].
  - destruct (Str.chr_isspace c) eqn:Hc; [reflexivity|]. cbn. exact Hc.
  - exact IH.
Qed.

Lemma strip_is_stripped (s : string) : is_stripped (Str.strip s) = true.
Proof.
  unfold is_stripped, Str.strip.
  now rewrite (rstrip_starts _ (lstrip_starts s)), rstrip_ends.
Qed.

(** ** The extraction *)

Ltac step_lift :=
  rewrite bind_lift;
  match goal with
  | |- context [match ?r with inl _ => _ | inr _ => _ end] =>
      destruct r eqn:?
  end; [discriminate|].

(** What a successful extraction went through. *)
Lemma extraer_inv (env : Env) (img : list Byte.byte) (log log1 : list event)
  (x : extraccion) :
  extraer env img log = (inr x, log1) ->
  exists content ia v a,
    chat_create env img = inr content /\
    json_loads env (str_or (opt_or_empty content) "{}") = inr ia /\
    Json.get ia "isbn" (JStr "") = inr v /\
    limpiar_isbn_dyn v = inr (isbn_ia x) /\
    get_stripped ia "titulo" = inr (titulo_ia x) /\
    get_stripped ia "autor" = inr (autor_ia x) /\
    Json.get ia "anio" JNull = inr a /\
    anio_ia x = Json.or_ a (JNum 0) /\
    get_stripped ia "editorial" = inr (editorial_ia x).
Proof.
  unfold extraer. rewrite bind_emit. do 8 step_lift.
  intros [= <- _]. cbn [isbn_ia titulo_ia autor_ia anio_ia editorial_ia].
  do 4 eexists. repeat split; eassumption.
Qed.

Lemma get_stripped_is_stripped (ia : json) (k s : string) :
  get_stripped ia k = inr s -> is_stripped s = true.
Proof.
  unfold get_stripped. destruct (Json.get ia k JNull); [discriminate|].
  destruct (Json.or_ j (JStr "")); try discriminate.
  intros [= <-]. apply strip_is_stripped.
Qed.

(** The year of an extraction is a true value or the number 0. *)
Lemma extraer_anio_true_or_zero (env : Env) (img : list Byte.byte)
  (log log1 : list event) (x : extraccion) :
  extraer env img log = (inr x, log1) ->
  Json.truthy (anio_ia x) = true \/ anio_ia x = JNum 0.
Proof.
  intros Hx.
  destruct (extraer_inv _ _ _ _ _ Hx)
    as (content & ia & v & a & _ & _ & _ & _ & _ & _ & _ & Hy & _).
  rewrite Hy. unfold Json.or_.
  destruct (Json.truthy a) eqn:Hta; [left; exact Hta|right; reflexivity].
Qed.

(** X3. The title, author and publisher of an extraction neither begin nor
    end with white space, its identifier satisfies the identifier
    constraint, and its year is a true value or the number 0. *)
Theorem extraer_fields_clean (env : Env) (img : list Byte.byte)
  (log log1 : list event) (x : extraccion) :
  extraer env img log = (inr x, log1) ->
  is_stripped (titulo_ia x) = true /\
  is_stripped (autor_ia x) = true /\
  is_stripped (editorial_ia x) = true /\
  valid_identifier (isbn_ia x) = true /\
  (Json.truthy (anio_ia x) = true \/ anio_ia x = JNum 0).
Proof.
  intros Hx.
  destruct (extraer_inv _ _ _ _ _ Hx)
    as (content & ia & v & a & _ & _ & _ & Hi & Ht & Ha & _ & Hy & He).
  repeat split.
  - exact (get_stripped_is_stripped _ _ _ Ht).
  - exact (get_stripped_is_stripped _ _ _ Ha).
  - exact (get_stripped_is_stripped _ _ _ He).
  - exact (limpiar_isbn_dyn_valid _ _ Hi).
  - rewrite Hy. unfold Json.or_.
    destruct (Json.truthy a) eqn:Hta; [left; exact Hta|right; reflexivity].
Qed.

Lemma extraer_fields_clean_witness :
  is_stripped "Dune" = true /\
  is_stripped "" = true /\
  is_stripped "" = true /\
  valid_identifier "" = true /\
  (Json.truthy (JNum 0) = true \/ JNum 0 = JNum 0).
Proof.
  apply (extraer_fields_clean Samples.env_dune Samples.image []
           [EvVision Samples.image] (Extraccion "" "Dune" "" (JNum 0) "")
           eq_refl).
Defined.

(** ** The result of the routine *)

Lemma get_raises_Exception (d : json) (k : string) (dflt : json) (e : exn) :
  Json.get d k dflt = inl e -> is_Exception e = true.
Proof. destruct d; try discriminate; intros [= <-]; reflexivity. Qed.

Lemma limpiar_isbn_dyn_raises_Exception (v : json) (e : exn) :
  limpiar_isbn_dyn v = inl e -> is_Exception e = true.
Proof.
  unfold limpiar_isbn_dyn. destruct (Json.truthy v); cbn [negb];
    [|discriminate].
  destruct v; try discriminate; intros [= <-]; reflexivity.
Qed.

Lemma get_stripped_raises_Exception (ia : json) (k : string) (e : exn) :
  get_stripped ia k = inl e -> is_Exception e = true.
Proof.
  unfold get_stripped.
  destruct (Json.get ia k JNull) as [e1|v] eqn:Hg.
  - intros [= <-]. exact (get_raises_Exception _ _ _ _ Hg).
  - destruct (Json.or_ v (JStr "")); try discriminate; intros [= <-];
      reflexivity.
Qed.

(** The reading of the fields raises [AttributeError] only. *)
Lemma leer_campos_raises_Exception (ia : json) (e : exn) :
  leer_campos ia = inl e -> is_Exception e = true.
Proof.
  unfold leer_campos.
  destruct (Json.get ia "isbn" (JStr "")) eqn:H1;
    [intros [= <-]; exact (get_raises_Exception _ _ _ _ H1)|].
  destruct (limpiar_isbn_dyn j) eqn:H2;
    [intros [= <-]; exact (limpiar_isbn_dyn_raises_Exception _ _ H2)|].
  destruct (get_stripped ia "titulo") eqn:H3;
    [intros [= <-]; exact (get_stripped_raises_Exception _ _ _ H3)|].
  destruct (get_stripped ia "autor") eqn:H4;
    [intros [= <-]; exact (get_stripped_raises_Exception _ _ _ H4)|].
  destruct (Json.get ia "anio" JNull) eqn:H5;
    [intros [= <-]; exact (get_raises_Exception _ _ _ _ H5)|].
  destruct (get_stripped ia "editorial") eqn:H6;
    [intros [= <-]; exact (get_stripped_raises_Exception _ _ _ H6)|].
  discriminate.
Qed.

Lemma extraer_raises_Exception (env : Env) (img : list Byte.byte)
  (log log1 : list event) (e : exn) :
  raise_only_Exception env ->
  extraer env img log = (inl e, log1) -> is_Exception e = true.
Proof.
  intros (Hv & Hj & _). rewrite extraer_eq.
  destruct (chat_create env img) as [e1|content] eqn:H1.
  - intros [= <- _]. exact (Hv _ _ H1).
  - destruct (json_loads env _) as [e1|ia] eqn:H2.
    + intros [= <- _]. exact (Hj _ _ H2).
    + intros [= H3 _]. exact (leer_campos_raises_Exception _ _ H3).
Qed.

(** The parsing of an item raises the [ValueError] of [int] only. *)
Lemma _parse_volume_raises_Exception (vol : volume) (fallback : string)
  (e : exn) :
  _parse_volume vol fallback = inl e -> is_Exception e = true.
Proof.
  unfold _parse_volume.
  destruct (_parse_volume_anio _) as [e1|n] eqn:Ha; [|discriminate].
  intros [= <-]. revert Ha. unfold _parse_volume_anio, int_of_str.
  repeat match goal with
         | |- context [if ?b then _ else _] => destruct b
         end; try discriminate; intros [= <-]; reflexivity.
Qed.

Lemma buscar_por_isbn_raises_Exception (env : Env) (i : option string)
  (log log' : list event) (e : exn) :
  raise_only_Exception env ->
  buscar_por_isbn env i log = (inl e, log') -> is_Exception e = true.
Proof.
  intros (_ & _ & Hg & Hb). unfold buscar_por_isbn.
  destruct (opt_truthy i); [|discriminate].
  destruct (Str.truthy (limpiar_isbn (opt_or_empty i))); [|discriminate].
  rewrite bind_get.
  destruct (requests_get env _) as [e1|r] eqn:Hr;
    [intros [= <- _]; exact (Hg _ _ Hr)|].
  destruct (status_code r =? 200)%Z; [|discriminate].
  rewrite bind_lift. destruct (json_body r) as [e1|data] eqn:Hd;
    [intros [= <- _]; exact (Hb _ _ _ Hr Hd)|].
  destruct (first_item data) as [vol|]; [|discriminate].
  rewrite bind_lift. destruct (_parse_volume vol _) as [e1|gb] eqn:Hp;
    [intros [= <- _]; exact (_parse_volume_raises_Exception _ _ _ Hp)|].
  destruct (has_titulo_or_autor gb); discriminate.
Qed.

Lemma buscar_por_texto_raises_Exception (env : Env) (i t a : option string)
  (log log' : list event) (e : exn) :
  raise_only_Exception env ->
  buscar_por_texto env i t a log = (inl e, log') -> is_Exception e = true.
Proof.
  intros (_ & _ & Hg & Hb). unfold buscar_por_texto.
  destruct (q_parts t a) as [|p ps]; [discriminate|].
  rewrite bind_get.
  destruct (requests_get env _) as [e1|r] eqn:Hr;
    [intros [= <- _]; exact (Hg _ _ Hr)|].
  destruct (status_code r =? 200)%Z; cbn [negb]; [|discriminate].
  rewrite bind_lift. destruct (json_body r) as [e1|data] eqn:Hd;
    [intros [= <- _]; exact (Hb _ _ _ Hr Hd)|].
  destruct (first_item data) as [vol|]; [|discriminate].
  rewrite bind_lift. destruct (_parse_volume vol _) as [e1|gb] eqn:Hp;
    [intros [= <- _]; exact (_parse_volume_raises_Exception _ _ _ Hp)|].
  destruct (has_titulo_or_autor gb); discriminate.
Qed.

Lemma buscar_en_google_books_raises_Exception (env : Env)
  (i t a : option string) (log log' : list event) (e : exn) :
  raise_only_Exception env ->
  buscar_en_google_books env i t a log = (inl e, log') ->
  is_Exception e = true.
Proof.
  intros Henv. rewrite buscar_en_google_books_eq.
  destruct (buscar_por_isbn env i _) as [[e1|[gb|]] log1] eqn:H1.
  - intros [= <- _]. exact (buscar_por_isbn_raises_Exception _ _ _ _ _ Henv H1).
  - discriminate.
  - apply buscar_por_texto_raises_Exception, Henv.
Qed.

(** X4. When whatever the collaborators raise is an instance of
    [Exception], the routine does not raise - the exceptions of its own code
    are instances of [Exception] too - and it returns either a record
    without an error or an error without a record. *)
Theorem identificar_libro_por_imagen_total (env : Env) (img : list Byte.byte)
  (log : list event) :
  raise_only_Exception env ->
  exists res log',
    identificar_libro_por_imagen env img log = (inr res, log') /\
    ((exists final, res = (Some final, None))
     \/ (exists msg, res = (None, Some msg))).
Proof.
  intros Henv. destruct (client env) eqn:Hc.
  - rewrite (identificar_libro_por_imagen_eq env img log Hc).
    destruct (extraer env img log) as [[e|x] log1] eqn:Hx.
    + unfold handled, error_ia.
      rewrite (extraer_raises_Exception _ _ _ _ _ Henv Hx). eauto 6.
    + destruct (buscar_en_google_books env _ _ _ log1) as [[e|gb] log2] eqn:Hb.
      * unfold handled, error_ia.
        rewrite (buscar_en_google_books_raises_Exception _ _ _ _ _ _ _ Henv Hb).
        eauto 6.
      * eauto 6.
  - rewrite (identificar_libro_por_imagen_no_client env img log Hc). eauto 6.
Qed.

Lemma env_timeout_raise_only_Exception :
  raise_only_Exception Samples.env_timeout.
Proof.
  repeat split.
  - intros img e. discriminate.
  - intros s e. unfold Samples.env_timeout, json_loads, Samples.loads.
    repeat match goal with
           | |- context [if ?b then _ else _] => destruct b
           end; try discriminate; intros [= <-]; reflexivity.
  - intros url e [= <-]. reflexivity.
  - intros url r e. discriminate.
Qed.

Lemma identificar_libro_por_imagen_total_witness :
  exists res log',
    identificar_libro_por_imagen Samples.env_timeout Samples.image [] =
      (inr res, log') /\
    ((exists final, res = (Some final, None))
     \/ (exists msg, res = (None, Some msg))).
Proof.
  apply (identificar_libro_por_imagen_total Samples.env_timeout Samples.image
           [] env_timeout_raise_only_Exception).
Defined.

(** X5. With [OPENAI_API_KEY] unset or empty there is no client: the routine
    reports the missing key and calls neither the vision service nor the
    catalog. *)
Theorem no_key_no_calls (env : Env) (key : option string)
  (img : list Byte.byte) (log : list event) :
  key = None \/ key = Some "" ->
  identificar_libro_por_imagen (with_key key env) img log =
  (inr (None, Some "OPENAI_API_KEY no configurada en el entorno."), log).
Proof.
  intros Hk. apply identificar_libro_por_imagen_no_client.
  destruct Hk as [-> | ->]; reflexivity.
Qed.

Lemma no_key_no_calls_witness :
  identificar_libro_por_imagen (with_key (Some "") Samples.env_dune)
    Samples.image [] =
  (inr (None, Some "OPENAI_API_KEY no configurada en el entorno."), []).
Proof.
  apply (no_key_no_calls Samples.env_dune (Some "") Samples.image []
           (or_intror eq_refl)).
Defined.

(** X6. When the payload gives the identifier as a true value that is not a
    string (a number, say), the routine returns the error of the missing
    [upper] method and no record, and the catalog is not consulted. *)
Theorem non_text_isbn_is_an_error (env : Env) (img : list Byte.byte)
  (log : list event) (content : option string)
  (kv : list (string * json)) (v : json) :
  client env = true ->
  chat_create env img = inr content ->
  json_loads env (str_or (opt_or_empty content) "{}") = inr (JObj kv) ->
  Json.assoc "isbn" kv = Some v ->
  Json.truthy v = true ->
  (forall s, v <> JStr s) ->
  identificar_libro_por_imagen env img log =
  (inr (None,
        Some ("Error al consultar la IA: '" ++ Json.type_name v
                ++ "' object has no attribute 'upper'")),
   (log ++ [EvVision img])%list).
Proof.
  intros Hc Hv Hj Hk Ht Hs.
  rewrite (identificar_libro_por_imagen_eq env img log Hc).
  assert (extraer env img log =
          (inl (Json.no_attribute v "upper"), (log ++ [EvVision img])%list))
    as ->.
  { unfold extraer. rewrite bind_emit, bind_lift, Hv, bind_lift, Hj, bind_lift.
    cbn [Json.get]. rewrite Hk, bind_lift. unfold limpiar_isbn_dyn.
    rewrite Ht. cbn [negb].
    destruct v; try reflexivity. exfalso. exact (Hs s eq_refl). }
  reflexivity.
Qed.

Lemma non_text_isbn_is_an_error_witness :
  identificar_libro_por_imagen Samples.env_isbn_number Samples.image [] =
  (inr (None,
        Some "Error al consultar la IA: 'int' object has no attribute 'upper'"),
   [EvVision Samples.image]).
Proof.
  apply (non_text_isbn_is_an_error Samples.env_isbn_number Samples.image []
           (Some "isbn-as-number") [("isbn", JNum 9780441013593)]
           (JNum 9780441013593) eq_refl eq_refl eq_refl eq_refl eq_refl).
  intros s. discriminate.
Defined.

(** X7. When the payload decodes to a value that is not an object, the
    routine returns the error of the missing [get] method and no record,
    and the catalog is not consulted. *)
Theorem non_object_payload_is_an_error (env : Env) (img : list Byte.byte)
  (log : list event) (content : option string) (ia : json) :
  client env = true ->
  chat_create env img = inr content ->
  json_loads env (str_or (opt_or_empty content) "{}") = inr ia ->
  (forall kv, ia <> JObj kv) ->
  identificar_libro_por_imagen env img log =
  (inr (None,
        Some ("Error al consultar la IA: '" ++ Json.type_name ia
                ++ "' object has no attribute 'get'")),
   (log ++ [EvVision img])%list).
Proof.
  intros Hc Hv Hj Hia.
  rewrite (identificar_libro_por_imagen_eq env img log Hc).
  assert (extraer env img log =
          (inl (Json.no_attribute ia "get"), (log ++ [EvVision img])%list))
    as ->.
  { unfold extraer. rewrite bind_emit, bind_lift, Hv, bind_lift, Hj, bind_lift.
    destruct ia; try reflexivity. exfalso. exact (Hia kv eq_refl). }
  reflexivity.
Qed.

Lemma non_object_payload_is_an_error_witness :
  identificar_libro_por_imagen Samples.env_payload_list Samples.image [] =
  (inr (None,
        Some "Error al consultar la IA: 'list' object has no attribute 'get'"),
   [EvVision Samples.image]).
Proof.
  apply (non_object_payload_is_an_error Samples.env_payload_list Samples.image
           [] (Some "[]") (JArr []) eq_refl eq_refl eq_refl).
  intros kv. discriminate.
Defined.

(** ** Requests of the resolver *)

Lemma buscar_por_isbn_log (env : Env) (i : option string)
  (log log' : list event) (r : py (option libro)) :
  buscar_por_isbn env i log = (r, log') ->
  log' = log \/
  (Str.truthy (limpiar_isbn (opt_or_empty i)) = true /\
   log' = (log ++ [EvGet (isbn_url i)])%list).
Proof.
  unfold buscar_por_isbn, isbn_url.
  destruct (opt_truthy i); [|intros [= _ <-]; now left].
  destruct (Str.truthy (limpiar_isbn (opt_or_empty i))) eqn:Hclean;
    [|intros [= _ <-]; now left].
  rewrite bind_get. intros H. right. split; [reflexivity|]. revert H.
  destruct (requests_get env _) as [e|resp]; [now intros [= _ <-]|].
  destruct (status_code resp =? 200)%Z; [|now intros [= _ <-]].
  rewrite bind_lift. destruct (json_body resp) as [e|data];
    [now intros [= _ <-]|].
  destruct (first_item data) as [vol|]; [|now intros [= _ <-]].
  rewrite bind_lift. destruct (_parse_volume vol _) as [e|gb];
    [now intros [= _ <-]|].
  destruct (has_titulo_or_autor gb); now intros [= _ <-].
Qed.

Lemma buscar_por_texto_log (env : Env) (i t a : option string)
  (log log' : list event) (r : py (option libro)) :
  buscar_por_texto env i t a log = (r, log') ->
  log' = log \/ log' = (log ++ [EvGet (text_url t a)])%list.
Proof.
  unfold buscar_por_texto, text_url.
  destruct (q_parts t a) as [|p ps]; [intros [= _ <-]; now left|].
  rewrite bind_get. intros H. right. revert H.
  destruct (requests_get env _) as [e|resp]; [now intros [= _ <-]|].
  destruct (status_code resp =? 200)%Z; cbn [negb]; [|now intros [= _ <-]].
  rewrite bind_lift. destruct (json_body resp) as [e|data];
    [now intros [= _ <-]|].
  destruct (first_item data) as [vol|]; [|now intros [= _ <-]].
  rewrite bind_lift. destruct (_parse_volume vol _) as [e|gb];
    [now intros [= _ <-]|].
  destruct (has_titulo_or_autor gb); now intros [= _ <-].
Qed.

(** The requests of one call of the resolver: each tier issues its request
    or none. *)
Lemma buscar_en_google_books_log (env : Env) (i t a : option string)
  (log log' : list event) (r : py (option libro)) :
  buscar_en_google_books env i t a log = (r, log') ->
  exists b1 b2 : bool,
    log' = (log ++ EvBuscar i t a
              :: (if b1 then [EvGet (isbn_url i)] else [])
              ++ (if b2 then [EvGet (text_url t a)] else []))%list /\
    (b1 = true -> Str.truthy (limpiar_isbn (opt_or_empty i)) = true).
Proof.
  rewrite buscar_en_google_books_eq.
  destruct (buscar_por_isbn env i _) as [r1 log1] eqn:H1.
  pose proof (buscar_por_isbn_log _ _ _ _ _ H1) as Hlog1.
  assert (forall l, (log ++ [EvBuscar i t a]) ++ l
                    = log ++ EvBuscar i t a :: l)%list as Happ
      by (intros l; now rewrite <- app_assoc).
  assert (exists b1 : bool,
             log1 = (log ++ EvBuscar i t a
                       :: (if b1 then [EvGet (isbn_url i)] else []))%list /\
             (b1 = true -> Str.truthy (limpiar_isbn (opt_or_empty i)) = true))
    as (b1 & -> & Hb1).
  { destruct Hlog1 as [-> | [Hc ->]].
    - exists false. split; [reflexivity|discriminate].
    - exists true. rewrite Happ. auto. }
  destruct r1 as [e|[gb|]].
  - intros [= <- <-]. exists b1, false. now rewrite app_nil_r.
  - intros [= <- <-]. exists b1, false. now rewrite app_nil_r.
  - intros H2. pose proof (buscar_por_texto_log _ _ _ _ _ _ _ H2) as Hlog2.
    destruct Hlog2 as [-> | ->].
    + exists b1, false. now rewrite app_nil_r.
    + exists b1, true. split; [|exact Hb1].
      now rewrite <- app_assoc.
Qed.

Lemma isbn_url_not_text_url (i t a : option string) :
  isbn_url i <> text_url t a.
Proof.
  unfold isbn_url, text_url, q_parts, volumes_url.
  destruct (opt_truthy t), (opt_truthy a); cbn; discriminate.
Qed.

(** X8. A call of the resolver issues at most two requests, in this order:
    one for the normalized identifier, when that is not empty, and one for
    the title and author; each at most once, and nothing else is logged. *)
Theorem buscar_en_google_books_requests (env : Env) (i t a : option string)
  (log log' : list event) (r : py (option libro)) :
  buscar_en_google_books env i t a log = (r, log') ->
  exists gets,
    log' = (log ++ EvBuscar i t a :: gets)%list /\
    (gets = []
     \/ gets = [EvGet (isbn_url i)]
     \/ gets = [EvGet (text_url t a)]
     \/ gets = [EvGet (isbn_url i); EvGet (text_url t a)]) /\
    (In (EvGet (isbn_url i)) gets ->
     Str.truthy (limpiar_isbn (opt_or_empty i)) = true).
Proof.
  intros H.
  destruct (buscar_en_google_books_log _ _ _ _ _ _ _ H) as (b1 & b2 & -> & Hb1).
  eexists. split; [reflexivity|].
  destruct b1, b2; cbn [app]; split; auto 6.
  intros [Hin|[]]. exfalso.
  apply (isbn_url_not_text_url i t a). congruence.
Qed.

Lemma buscar_en_google_books_requests_witness :
  exists gets,
    [EvBuscar None (Some "Dune") None; EvGet (volumes_url ++ "intitle:Dune")] =
      ([] ++ EvBuscar None (Some "Dune") None :: gets)%list /\
    (gets = []
     \/ gets = [EvGet (isbn_url None)]
     \/ gets = [EvGet (text_url (Some "Dune") None)]
     \/ gets = [EvGet (isbn_url None); EvGet (text_url (Some "Dune") None)]) /\
    (In (EvGet (isbn_url None)) gets ->
     Str.truthy (limpiar_isbn (opt_or_empty None)) = true).
Proof.
  apply (buscar_en_google_books_requests Samples.env_dune
           None (Some "Dune") None []
           [EvBuscar None (Some "Dune") None;
            EvGet (volumes_url ++ "intitle:Dune")]
           (inr (Some (Libro "9780441013593" "Dune" "Frank Herbert"
                         (JNum 1965) "Ace")))
           eq_refl).
Defined.

(** X9. What one run of the routine adds to the log: nothing without a
    client; otherwise the vision call, followed, when the extraction
    succeeded, by one call of the resolver with the hints of the extraction
    (each [None] or a non-empty string) and at most two requests. *)
Theorem identificar_libro_por_imagen_log (env : Env) (img : list Byte.byte)
  (log log' : list event) (res : py resultado) :
  identificar_libro_por_imagen env img log = (res, log') ->
  (client env = false /\ log' = log)
  \/ (client env = true /\
      exists e, extraer env img log = (inl e, log') /\
                log' = (log ++ [EvVision img])%list)
  \/ (client env = true /\
      exists x gets,
        extraer env img log = (inr x, (log ++ [EvVision img])%list) /\
        log' = (log ++ EvVision img
                  :: EvBuscar (str_or_None (isbn_ia x))
                       (str_or_None (titulo_ia x))
                       (str_or_None (autor_ia x))
                  :: gets)%list /\
        (length gets <= 2)%nat /\
        forallb is_get_event gets = true /\
        str_or_None (isbn_ia x) <> Some "" /\
        str_or_None (titulo_ia x) <> Some "" /\
        str_or_None (autor_ia x) <> Some "").
Proof.
  destruct (client env) eqn:Hc.
  - rewrite (identificar_libro_por_imagen_eq env img log Hc).
    destruct (extraer env img log) as [[e|x] log1] eqn:Hx.
    + intros [= _ <-]. right. left. split; [reflexivity|].
      exists e. split; [reflexivity|]. exact (extraer_log _ _ _ _ _ Hx).
    + pose proof (extraer_log _ _ _ _ _ Hx) as ->.
      destruct (buscar_en_google_books env _ _ _ _) as [rb log2] eqn:Hb.
      destruct (buscar_en_google_books_log _ _ _ _ _ _ _ Hb)
        as (b1 & b2 & Hlog2 & _).
      intros H. right. right. split; [reflexivity|].
      exists x. eexists.
      assert (log' = log2) as -> by (destruct rb; now injection H).
      split; [reflexivity|]. split; [rewrite Hlog2, <- app_assoc; reflexivity|].
      assert (forall s, str_or_None s <> Some "") as Hne
          by (intros [|c s]; discriminate).
      destruct b1, b2; cbn; auto 8.
  - rewrite (identificar_libro_por_imagen_no_client env img log Hc).
    intros [= _ <-]. now left.
Qed.

Lemma identificar_libro_por_imagen_log_witness :
  (client Samples.env_vision_down = false /\ [EvVision Samples.image] = [])
  \/ (client Samples.env_vision_down = true /\
      exists e,
        extraer Samples.env_vision_down Samples.image [] =
          (inl e, [EvVision Samples.image]) /\
        [EvVision Samples.image] = ([] ++ [EvVision Samples.image])%list)
  \/ (client Samples.env_vision_down = true /\
      exists x gets,
        extraer Samples.env_vision_down Samples.image [] =
          (inr x, ([] ++ [EvVision Samples.image])%list) /\
        [EvVision Samples.image] =
          ([] ++ EvVision Samples.image
              :: EvBuscar (str_or_None (isbn_ia x))
                   (str_or_None (titulo_ia x))
                   (str_or_None (autor_ia x))
              :: gets)%list /\
        (length gets <= 2)%nat /\
        forallb is_get_event gets = true /\
        str_or_None (isbn_ia x) <> Some "" /\
        str_or_None (titulo_ia x) <> Some "" /\
        str_or_None (autor_ia x) <> Some "").
Proof.
  apply (identificar_libro_por_imagen_log Samples.env_vision_down
           Samples.image [] [EvVision Samples.image]
           (inr (None,
                 Some "Error al consultar la IA: Error code: 429 - rate limit exceeded"))
           eq_refl).
Defined.

(** ** Candidates *)

Lemma _parse_volume_isbn_truthy (l : list identifier_entry) :
  forall fallback,
    Str.truthy fallback = true ->
    Str.truthy (_parse_volume_isbn fallback l) = true.
Proof.
  induction l as [|e l IH]; intros fallback Hfb; [exact Hfb|].
  cbn [_parse_volume_isbn].
  destruct (is_isbn_type (ie_type e)); cbn [andb]; [|now apply IH].
  destruct (Str.truthy (opt_or_empty (ie_identifier e))) eqn:Hv;
    [|now apply IH].
  destruct (is_isbn_13 (ie_type e)); [exact Hv|now apply IH].
Qed.

(** X10. A candidate returned by the resolver has a title or an author; its
    year is an integer between 0 and 9999; and when the identifier hint
    normalizes to a non-empty identifier, the candidate's identifier is not
    empty either. *)
Theorem candidate_is_usable (env : Env) (i t a : option string)
  (log log' : list event) (gb : libro) :
  buscar_en_google_books env i t a log = (inr (Some gb), log') ->
  (titulo gb <> "" \/ autor gb <> "") /\
  (exists n, anio gb = JNum n /\ (0 <= n <= 9999)%Z) /\
  (limpiar_isbn (opt_or_empty i) <> "" -> isbn gb <> "").
Proof.
  intros Hgb.
  destruct (buscar_en_google_books_candidate _ _ _ _ _ _ _ Hgb)
    as (url & r & data & vol & _ & _ & _ & Hp & Hta).
  destruct (_parse_volume_fields _ _ _ Hp) as (Hi & n & Hn & Hy).
  repeat split.
  - unfold has_titulo_or_autor in Hta. apply orb_true_iff in Hta.
    destruct Hta as [H|H]; [left|right]; intros Heq; rewrite Heq in H;
      discriminate.
  - exists n. split; [exact Hy|].
    exact (_parse_volume_anio_bounds (pub_date_of vol) n Hn).
  - intros Hne Heq.
    assert (Str.truthy (limpiar_isbn (opt_or_empty i)) = true) as Hfb
        by (destruct (limpiar_isbn (opt_or_empty i)); [now destruct Hne|reflexivity]).
    pose proof (_parse_volume_isbn_truthy (idents_of vol) _ Hfb) as H.
    rewrite <- Hi, Heq in H. discriminate.
Qed.

Lemma candidate_is_usable_witness :
  let gb := Libro "9780441013593" "Dune" "Frank Herbert" (JNum 1965) "Ace" in
  (titulo gb <> "" \/ autor gb <> "") /\
  (exists n, anio gb = JNum n /\ (0 <= n <= 9999)%Z) /\
  (limpiar_isbn (opt_or_empty (Some "0-441-01359-7")) <> "" -> isbn gb <> "").
Proof.
  apply (candidate_is_usable Samples.env_dune (Some "0-441-01359-7") None None
           []
           [EvBuscar (Some "0-441-01359-7") None None;
            EvGet (isbn_url (Some "0-441-01359-7"))]
           (Libro "9780441013593" "Dune" "Frank Herbert" (JNum 1965) "Ace")
           eq_refl).
Defined.

(** ** The merge *)

(** X11. When the resolver returns no candidate, the final record is the
    extraction, field for field. *)
Theorem no_candidate_keeps_extraction (env : Env) (img : list Byte.byte)
  (log log1 log2 : list event) (x : extraccion) :
  client env = true ->
  extraer env img log = (inr x, log1) ->
  buscar_en_google_books env
    (str_or_None (isbn_ia x)) (str_or_None (titulo_ia x))
    (str_or_None (autor_ia x)) log1 = (inr None, log2) ->
  identificar_libro_por_imagen env img log =
  (inr (Some (Libro (isbn_ia x) (titulo_ia x) (autor_ia x) (anio_ia x)
                    (editorial_ia x)), None), log2).
Proof.
  intros Hc Hx Hgb.
  rewrite (identificar_libro_por_imagen_eq env img log Hc), Hx, Hgb.
  cbn [combinar].
  destruct (extraer_anio_true_or_zero env img log log1 x Hx) as [Ht | H0];
    unfold Json.or_; [now rewrite Ht|now rewrite H0].
Qed.

Lemma no_candidate_keeps_extraction_witness :
  identificar_libro_por_imagen Samples.env_no_items Samples.image [] =
  (inr (Some (Libro "" "Dune" "" (JNum 0) ""), None),
   [EvVision Samples.image; EvBuscar None (Some "Dune") None;
    EvGet (text_url (Some "Dune") None)]).
Proof.
  apply (no_candidate_keeps_extraction Samples.env_no_items Samples.image []
           [EvVision Samples.image]
           [EvVision Samples.image; EvBuscar None (Some "Dune") None;
            EvGet (text_url (Some "Dune") None)]
           (Extraccion "" "Dune" "" (JNum 0) "")
           eq_refl eq_refl eq_refl).
Defined.

Lemma str_or_truthy_r (a b : string) :
  Str.truthy b = true -> Str.truthy (str_or a b) = true.
Proof.
  intros Hb. unfold str_or. destruct (Str.truthy a) eqn:Ha; assumption.
Qed.

(** X12. The merge loses nothing: whatever the resolver returned, a field
    that the extraction filled (a non-empty text, a true year) is filled in
    the final record, and a text field left empty by both is empty. *)
Theorem merge_keeps_extracted_fields (env : Env) (img : list Byte.byte)
  (log log1 log2 : list event) (x : extraccion) (gb : option libro) :
  client env = true ->
  extraer env img log = (inr x, log1) ->
  buscar_en_google_books env
    (str_or_None (isbn_ia x)) (str_or_None (titulo_ia x))
    (str_or_None (autor_ia x)) log1 = (inr gb, log2) ->
  exists final,
    identificar_libro_por_imagen env img log = (inr (Some final, None), log2) /\
    (isbn_ia x <> "" -> isbn final <> "") /\
    (titulo_ia x <> "" -> titulo final <> "") /\
    (autor_ia x <> "" -> autor final <> "") /\
    (editorial_ia x <> "" -> editorial final <> "") /\
    (Json.truthy (anio_ia x) = true -> Json.truthy (anio final) = true) /\
    (editorial_ia x = "" ->
     (forall c, gb = Some c -> editorial c = "") -> editorial final = "").
Proof.
  intros Hc Hx Hgb. exists (combinar gb x).
  rewrite (identificar_libro_por_imagen_eq env img log Hc), Hx, Hgb.
  split; [reflexivity|].
  assert (forall a b, b <> "" -> str_or a b <> "") as Hor.
  { intros a b Hb Heq.
    assert (Str.truthy (str_or a b) = true) as H
        by (apply str_or_truthy_r; destruct b; [now destruct Hb|reflexivity]).
    rewrite Heq in H. discriminate. }
  destruct gb as [c|]; cbn [combinar isbn titulo autor editorial anio].
  - repeat split; try (apply Hor).
    + intros Hy. unfold Json.or_.
      destruct (Json.truthy (anio c)) eqn:Hcy; rewrite ?Hcy, ?Hy; rewrite ?Hcy, ?Hy;
        reflexivity.
    + intros He Hce. unfold str_or. rewrite (Hce c eq_refl). exact He.
  - repeat split; auto.
    intros Hy. unfold Json.or_. now rewrite Hy.
Qed.

Lemma merge_keeps_extracted_fields_witness :
  exists final,
    identificar_libro_por_imagen Samples.env_dune Samples.image [] =
      (inr (Some final, None),
       [EvVision Samples.image; EvBuscar None (Some "Dune") None;
        EvGet (text_url (Some "Dune") None)]) /\
    titulo final <> "".
Proof.
  destruct (merge_keeps_extracted_fields Samples.env_dune Samples.image []
              [EvVision Samples.image]
              [EvVision Samples.image; EvBuscar None (Some "Dune") None;
               EvGet (text_url (Some "Dune") None)]
              (Extraccion "" "Dune" "" (JNum 0) "")
              (Some (Libro "9780441013593" "Dune" "Frank Herbert"
                       (JNum 1965) "Ace"))
              eq_refl eq_refl eq_refl)
    as (final & Hrun & _ & Ht & _).
  exists final. split; [exact Hrun|]. apply Ht. discriminate.
Defined.

(** ** The two tiers *)

Lemma truthy_clean_truthy_hint (i : option string) :
  Str.truthy (limpiar_isbn (opt_or_empty i)) = true -> opt_truthy i = true.
Proof. destruct i as [[|c s]|]; try discriminate; reflexivity. Qed.

(** X13. The identifier tier ends the lookup when it succeeds: a first item
    with a title or an author, found for the normalized identifier, is
    returned after that single request, and the title and author hints are
    not used. *)
Theorem identifier_tier_short_circuits (env : Env) (i t a : option string)
  (log : list event) (r : response) (data : catalog_data) (vol : volume)
  (gb : libro) :
  limpiar_isbn (opt_or_empty i) <> "" ->
  requests_get env (isbn_url i) = inr r ->
  status_code r = 200%Z ->
  json_body r = inr data ->
  first_item data = Some vol ->
  _parse_volume vol (limpiar_isbn (opt_or_empty i)) = inr gb ->
  titulo gb <> "" \/ autor gb <> "" ->
  buscar_en_google_books env i t a log =
  (inr (Some gb), (log ++ [EvBuscar i t a; EvGet (isbn_url i)])%list).
Proof.
  intros Hne Hr Hs Hd Hf Hp Hta.
  assert (Str.truthy (limpiar_isbn (opt_or_empty i)) = true) as Hclean
      by (destruct (limpiar_isbn (opt_or_empty i)); [now destruct Hne|reflexivity]).
  assert (has_titulo_or_autor gb = true) as Hacc.
  { unfold has_titulo_or_autor.
    destruct Hta as [H|H]; [destruct (titulo gb)|destruct (autor gb)];
      try (now destruct H); cbn; auto using orb_true_r. }
  rewrite buscar_en_google_books_eq. unfold buscar_por_isbn.
  rewrite (truthy_clean_truthy_hint i Hclean), Hclean, bind_get.
  unfold isbn_url in Hr. rewrite Hr, Hs. cbn [Z.eqb Pos.eqb].
  rewrite bind_lift, Hd, Hf, bind_lift, Hp, Hacc. unfold ret, isbn_url.
  now rewrite <- app_assoc.
Qed.

Lemma identifier_tier_short_circuits_witness :
  buscar_en_google_books Samples.env_dune
    (Some "0-441-01359-7") (Some "Dune") (Some "Herbert") [] =
  (inr (Some (Libro "9780441013593" "Dune" "Frank Herbert" (JNum 1965) "Ace")),
   [EvBuscar (Some "0-441-01359-7") (Some "Dune") (Some "Herbert");
    EvGet (isbn_url (Some "0-441-01359-7"))]).
Proof.
  apply (identifier_tier_short_circuits Samples.env_dune
           (Some "0-441-01359-7") (Some "Dune") (Some "Herbert") []
           (Response 200
              (inr (CatalogData
                      (Some [Samples.dune_volume
                               [Samples.isbn10 "0441013597";
                                Samples.isbn13 "9780441013593"]
                               "1965-06-01"]))))
           (CatalogData
              (Some [Samples.dune_volume
                       [Samples.isbn10 "0441013597";
                        Samples.isbn13 "9780441013593"]
                       "1965-06-01"]))
           (Samples.dune_volume
              [Samples.isbn10 "0441013597"; Samples.isbn13 "9780441013593"]
              "1965-06-01")
           (Libro "9780441013593" "Dune" "Frank Herbert" (JNum 1965) "Ace"));
    try reflexivity; [discriminate|left; discriminate].
Defined.

(** With a title or an author the text tier issues its request. *)
Lemma buscar_por_texto_requests (env : Env) (i t a : option string)
  (log : list event) :
  opt_truthy t = true \/ opt_truthy a = true ->
  exists res,
    buscar_por_texto env i t a log =
    (res, (log ++ [EvGet (text_url t a)])%list).
Proof.
  intros Hta. unfold buscar_por_texto, text_url.
  destruct (q_parts t a) as [|p ps] eqn:Hq.
  - exfalso. unfold q_parts in Hq.
    destruct Hta as [H|H]; rewrite H in Hq;
      [|destruct (opt_truthy t)]; discriminate.
  - rewrite bind_get.
    destruct (requests_get env _) as [e|resp]; [eauto|].
    destruct (status_code resp =? 200)%Z; cbn [negb]; [|unfold ret; eauto].
    rewrite bind_lift. destruct (json_body resp) as [e|data]; [eauto|].
    destruct (first_item data) as [vol|]; [|unfold ret; eauto].
    rewrite bind_lift. destruct (_parse_volume vol _) as [e|gb]; [eauto|].
    destruct (has_titulo_or_autor gb); unfold ret; eauto.
Qed.

(** X14. An exception raised by the request of the identifier tier leaves
    the resolver at once: the text tier is not tried, whatever the title and
    author hints.  A status other than 200 does not: the resolver goes on
    with the text tier, which issues its request when there is a title or
    an author. *)
Theorem identifier_tier_raise_versus_status (env : Env)
  (i t a : option string) (log : list event) :
  limpiar_isbn (opt_or_empty i) <> "" ->
  (forall e,
     requests_get env (isbn_url i) = inl e ->
     buscar_en_google_books env i t a log =
     (inl e, (log ++ [EvBuscar i t a; EvGet (isbn_url i)])%list)) /\
  (forall r,
     requests_get env (isbn_url i) = inr r ->
     status_code r <> 200%Z ->
     buscar_en_google_books env i t a log =
     buscar_por_texto env i t a
       (log ++ [EvBuscar i t a; EvGet (isbn_url i)])%list /\
     (opt_truthy t = true \/ opt_truthy a = true ->
      exists res,
        buscar_en_google_books env i t a log =
        (res, (log ++ [EvBuscar i t a; EvGet (isbn_url i);
                       EvGet (text_url t a)])%list))).
Proof.
  intros Hne.
  assert (Str.truthy (limpiar_isbn (opt_or_empty i)) = true) as Hclean
      by (destruct (limpiar_isbn (opt_or_empty i)); [now destruct Hne|reflexivity]).
  split.
  - intros e Hr.
    rewrite buscar_en_google_books_eq. unfold buscar_por_isbn.
    rewrite (truthy_clean_truthy_hint i Hclean), Hclean, bind_get.
    unfold isbn_url in Hr. rewrite Hr. unfold isbn_url.
    now rewrite <- app_assoc.
  - intros r Hr Hs.
    assert (buscar_en_google_books env i t a log =
            buscar_por_texto env i t a
              (log ++ [EvBuscar i t a; EvGet (isbn_url i)])%list) as Heq.
    { rewrite buscar_en_google_books_eq. unfold buscar_por_isbn.
      rewrite (truthy_clean_truthy_hint i Hclean), Hclean, bind_get.
      unfold isbn_url in Hr. rewrite Hr.
      apply Z.eqb_neq in Hs. rewrite Hs. unfold ret, isbn_url.
      now rewrite <- app_assoc. }
    split; [exact Heq|].
    intros Hta. rewrite Heq.
    destruct (buscar_por_texto_requests env i t a
                (log ++ [EvBuscar i t a; EvGet (isbn_url i)])%list Hta)
      as [res ->].
    exists res. now rewrite <- app_assoc.
Qed.

Lemma identifier_tier_raise_versus_status_witness :
  buscar_en_google_books Samples.env_timeout
    (Some "0-441-01359-7") (Some "Dune") None [] =
  (inl Samples.read_timeout,
   [EvBuscar (Some "0-441-01359-7") (Some "Dune") None;
    EvGet (isbn_url (Some "0-441-01359-7"))]) /\
  exists res,
    buscar_en_google_books Samples.env_unavailable
      (Some "0-441-01359-7") (Some "Dune") None [] =
    (res,
     [EvBuscar (Some "0-441-01359-7") (Some "Dune") None;
      EvGet (isbn_url (Some "0-441-01359-7"));
      EvGet (text_url (Some "Dune") None)]).
Proof.
  split.
  - apply (proj1 (identifier_tier_raise_versus_status Samples.env_timeout
                    (Some "0-441-01359-7") (Some "Dune") None [] ltac:(discriminate))
             Samples.read_timeout eq_refl).
  - apply (proj2 (proj2 (identifier_tier_raise_versus_status
                           Samples.env_unavailable
                           (Some "0-441-01359-7") (Some "Dune") None []
                           ltac:(discriminate))
                    (Response 503 (inl Samples.decode_error)) eq_refl
                    ltac:(discriminate))
             (or_introl eq_refl)).
Defined.

(** X15. When every request is answered by a status other than 200 or by a
    body without a first item, the resolver returns [None] and does not
    raise. *)
Theorem nothing_found_gives_none (env : Env) (i t a : option string)
  (log : list event) :
  (forall url, exists r, requests_get env url = inr r /\ nothing_found r) ->
  exists log', buscar_en_google_books env i t a log = (inr None, log').
Proof.
  intros Hnf. rewrite buscar_en_google_books_eq.
  assert (exists log1, buscar_por_isbn env i (log ++ [EvBuscar i t a])%list
                       = (inr None, log1)) as [log1 ->].
  { unfold buscar_por_isbn.
    destruct (opt_truthy i); [|unfold ret; eauto].
    destruct (Str.truthy (limpiar_isbn (opt_or_empty i))); [|unfold ret; eauto].
    rewrite bind_get.
    destruct (Hnf (volumes_url ++ "isbn:" ++ limpiar_isbn (opt_or_empty i)))
      as (r & -> & Hr).
    destruct (status_code r =? 200)%Z eqn:Hs; [|unfold ret; eauto].
    apply Z.eqb_eq in Hs. destruct Hr as [Hr | (data & Hd & Hf)];
      [now destruct Hr|].
    rewrite bind_lift, Hd, Hf. unfold ret; eauto. }
  unfold buscar_por_texto.
  destruct (q_parts t a) as [|p ps]; [unfold ret; eauto|].
  rewrite bind_get.
  destruct (Hnf (volumes_url ++ Str.join "+" (p :: ps))) as (r & -> & Hr).
  destruct (status_code r =? 200)%Z eqn:Hs; cbn [negb]; [|unfold ret; eauto].
  apply Z.eqb_eq in Hs. destruct Hr as [Hr | (data & Hd & Hf)];
    [now destruct Hr|].
  rewrite bind_lift, Hd, Hf. unfold ret; eauto.
Qed.

Lemma nothing_found_gives_none_witness :
  exists log',
    buscar_en_google_books Samples.env_no_items
      (Some "0441013597") (Some "Dune") None [] = (inr None, log').
Proof.
  apply (nothing_found_gives_none Samples.env_no_items
           (Some "0441013597") (Some "Dune") None []).
  intros url. eexists. split; [reflexivity|].
  right. eexists. split; reflexivity.
Defined.
